(** * Tax Estimation Engine: a shallow embedding of the Express handler
      [POST /calculate-tax] and of the three calculations it composes
      ([calculateTax], [calculateStandardDeduction], [calculateEITC]).

    Numbers.  A JavaScript number is modelled by [num]: an exact rational,
    one of the two infinities, or NaN.  The special values follow IEEE 754
    as JavaScript exposes it (NaN is absorbing, every comparison with NaN
    is false, [Infinity - Infinity] is NaN).  On finite values the
    arithmetic is exact: binary64 rounding error, overflow and the sign of
    zero are left out.  Finite values are kept in lowest terms ([Qred]),
    so that a concrete run of the program evaluates to a literal.

    Objects.  The three tables of the program are object literals.  A
    property read [obj[key]] first looks at the object's own properties
    and then at [Object.prototype], which every object literal inherits
    from; [get] models both steps.

    Beside the tax route, the file embeds the upload route, the file
    filter of the upload middleware with [path.extname], the
    error-handling middleware, and the state of the front end's form with
    the request it sends. *)

From Stdlib Require Import ZArith QArith Qround Qminmax Lqa Lia.
From Stdlib Require Import Bool List String Ascii.
Import ListNotations.

Set Implicit Arguments.

Local Open Scope string_scope.
Local Open Scope Z_scope.

(* ================================================================== *)
(** ** JavaScript numbers                                              *)
(* ================================================================== *)

Module JsNumber.

Inductive num : Type :=
| Fin (q : Q)
| PInf
| NInf
| NaN.

Definition of_Z (z : Z) : num := Fin (inject_Z z).

(** A decimal literal of the source, in lowest terms. *)
Definition lit (q : Q) : num := Fin (Qred q).

Definition zero : num := Fin 0.

(** [x + y] *)
Definition add (x y : num) : num :=
  match x, y with
  | NaN, _ | _, NaN => NaN
  | Fin a, Fin b => Fin (Qred (a + b))
  | PInf, NInf | NInf, PInf => NaN
  | PInf, _ | _, PInf => PInf
  | NInf, _ | _, NInf => NInf
  end.

(** [- x] *)
Definition neg (x : num) : num :=
  match x with
  | Fin a => Fin (Qred (- a))
  | PInf => NInf
  | NInf => PInf
  | NaN => NaN
  end.

(** [x - y] *)
Definition sub (x y : num) : num :=
  match x, y with
  | NaN, _ | _, NaN => NaN
  | Fin a, Fin b => Fin (Qred (a - b))
  | PInf, PInf | NInf, NInf => NaN
  | PInf, _ | _, NInf => PInf
  | NInf, _ | _, PInf => NInf
  end.

(** The sign of a finite value: [Gt] positive, [Lt] negative, [Eq] zero. *)
Definition sign (a : Q) : comparison := (a ?= 0)%Q.

(** An infinity of the given sign; a zero sign is the invalid operation
    [Infinity * 0]. *)
Definition inf_of (s : comparison) : num :=
  match s with Gt => PInf | Lt => NInf | Eq => NaN end.

(** [x * y] *)
Definition mul (x y : num) : num :=
  match x, y with
  | NaN, _ | _, NaN => NaN
  | Fin a, Fin b => Fin (Qred (a * b))
  | PInf, Fin a | Fin a, PInf => inf_of (sign a)
  | NInf, Fin a | Fin a, NInf => inf_of (CompOpp (sign a))
  | PInf, PInf | NInf, NInf => PInf
  | PInf, NInf | NInf, PInf => NInf
  end.

(** [x / y]; a zero divisor is taken as [+0]. *)
Definition div (x y : num) : num :=
  match x, y with
  | NaN, _ | _, NaN => NaN
  | Fin a, Fin b =>
      if Qeq_bool b 0 then inf_of (sign a) else Fin (Qred (a / b))
  | Fin _, (PInf | NInf) => zero
  | PInf, Fin b => match sign b with Lt => NInf | _ => PInf end
  | NInf, Fin b => match sign b with Lt => PInf | _ => NInf end
  | (PInf | NInf), (PInf | NInf) => NaN
  end.

(** [x <= y]: false as soon as one side is NaN. *)
Definition leb (x y : num) : bool :=
  match x, y with
  | NaN, _ | _, NaN => false
  | Fin a, Fin b => Qle_bool a b
  | NInf, _ | _, PInf => true
  | _, _ => false
  end.

(** [x < y] *)
Definition ltb (x y : num) : bool :=
  match x, y with
  | NaN, _ | _, NaN => false
  | Fin a, Fin b => negb (Qle_bool b a)
  | PInf, _ | _, NInf => false
  | _, _ => true
  end.

(** [x > y] and [x >= y] *)
Definition gtb (x y : num) : bool := ltb y x.
Definition geb (x y : num) : bool := leb y x.

(** [Math.max(x, y)] and [Math.min(x, y)]: NaN if either argument is. *)
Definition Math_max (x y : num) : num :=
  match x, y with
  | NaN, _ | _, NaN => NaN
  | _, _ => if leb x y then y else x
  end.

Definition Math_min (x y : num) : num :=
  match x, y with
  | NaN, _ | _, NaN => NaN
  | _, _ => if leb x y then x else y
  end.

(** [Math.round(x)]: the nearest integer, a tie going up: floor(x + 1/2). *)
Definition Math_round (x : num) : num :=
  match x with
  | Fin a => Fin (inject_Z (Qfloor (a + (1 # 2))))
  | _ => x
  end.

(** ToBoolean on a number: [0] and [NaN] are falsy. *)
Definition truthy (x : num) : bool :=
  match x with
  | NaN => false
  | Fin a => negb (Qeq_bool a 0)
  | _ => true
  end.

(** [x || 0] *)
Definition or_zero (x : num) : num := if truthy x then x else zero.

End JsNumber.

Import JsNumber.

Declare Scope num_scope.
Delimit Scope num_scope with num.
Bind Scope num_scope with num.
Infix "+" := add : num_scope.
Infix "-" := sub : num_scope.
Infix "*" := mul : num_scope.
Infix "/" := div : num_scope.
Infix "<=?" := leb : num_scope.
Infix "<?" := ltb : num_scope.
Infix ">?" := gtb (at level 70) : num_scope.
Infix ">=?" := geb (at level 70) : num_scope.

(* ================================================================== *)
(** ** Strings to numbers: [parseFloat] and [parseInt]                 *)
(* ================================================================== *)

Module Parse.

(** The white space and line terminators in the 7-bit range. *)
Definition is_white_space (c : ascii) : bool :=
  match nat_of_ascii c with
  | 9%nat | 10%nat | 11%nat | 12%nat | 13%nat | 32%nat => true
  | _ => false
  end.

Fixpoint trim_start (s : string) : string :=
  match s with
  | String c s' => if is_white_space c then trim_start s' else s
  | EmptyString => s
  end.

(** An optional sign: [true] for a leading minus. *)
Definition read_sign (s : string) : bool * string :=
  match s with
  | String "-" s' => (true, s')
  | String "+" s' => (false, s')
  | _ => (false, s)
  end.

Definition digit_of (radix : Z) (c : ascii) : option Z :=
  let n := Z.of_nat (nat_of_ascii c) in
  let d :=
    if (48 <=? n) && (n <=? 57) then Some (n - 48)
    else if (97 <=? n) && (n <=? 122) then Some (n - 87)
    else if (65 <=? n) && (n <=? 90) then Some (n - 55)
    else None in
  match d with
  | Some v => if v <? radix then Some v else None
  | None => None
  end.

(** The longest run of digits at the head of [s]: its value on top of
    [acc], how many digits were read on top of [n], and the rest. *)
Fixpoint read_digits (radix : Z) (s : string) (acc : Z) (n : nat)
  : Z * nat * string :=
  match s with
  | String c s' =>
      match digit_of radix c with
      | Some d => read_digits radix s' (radix * acc + d) (S n)
      | None => (acc, n, s)
      end
  | EmptyString => (acc, n, s)
  end.

(** [m * 10^e] as an exact rational. *)
Definition scale10 (m e : Z) : Q :=
  if 0 <=? e then inject_Z (m * 10 ^ e)
  else Qred (Qmake m (Z.to_pos (10 ^ (- e)))).

(** The exponent part [e[+-]digits]; it is read only when it is complete. *)
Definition read_exponent (s : string) : Z :=
  match s with
  | String c s' =>
      if (Ascii.eqb c "e" || Ascii.eqb c "E")%bool then
        let '(minus, s'') := read_sign s' in
        let '(e, n, _) := read_digits 10 s'' 0 0 in
        match n with
        | O => 0
        | _ => if minus then - e else e
        end
      else 0
  | EmptyString => 0
  end.

(** [parseFloat(v)]: the longest prefix of the trimmed string that is a
    decimal literal; NaN when there is none.  An absent field is
    [undefined], which reads as the string ["undefined"]: NaN. *)
Definition parseFloat (v : option string) : num :=
  match v with
  | None => NaN
  | Some s =>
      let '(minus, s1) := read_sign (trim_start s) in
      if prefix "Infinity" s1 then (if minus then NInf else PInf)
      else
        let '(ip, ni, s2) := read_digits 10 s1 0 0 in
        let '(m, nf, s3) :=
          match s2 with
          | String "." t => read_digits 10 t ip 0
          | _ => (ip, O, s2)
          end in
        match ni, nf with
        | O, O => NaN
        | _, _ =>
            let q := scale10 m (read_exponent s3 - Z.of_nat nf) in
            Fin (Qred (if minus then - q else q))
        end
  end.

(** [parseInt(v)] without a radix: decimal, or hexadecimal after [0x];
    [None] is NaN. *)
Definition parseInt (v : option string) : option Z :=
  match v with
  | None => None
  | Some s =>
      let '(minus, s1) := read_sign (trim_start s) in
      let '(radix, s2) :=
        match s1 with
        | String "0" (String c t) =>
            if (Ascii.eqb c "x" || Ascii.eqb c "X")%bool then (16, t)
            else (10, s1)
        | _ => (10, s1)
        end in
      let '(z, n, _) := read_digits radix s2 0 0 in
      match n with
      | O => None
      | _ => Some (if minus then - z else z)
      end
  end.

(** [parseInt(v) || 0] *)
Definition int_or_zero (r : option Z) : Z :=
  match r with Some z => z | None => 0 end.

End Parse.

Import Parse.

(* ================================================================== *)
(** ** Object literals and property reads                              *)
(* ================================================================== *)

(** What [obj[key]] finds: an own property, a member inherited from
    [Object.prototype] (a function, or for [__proto__] the prototype
    object itself), or [undefined]. *)
Inductive property (A : Type) : Type :=
| Own (a : A)
| Inherited
| Undefined.

Arguments Inherited {A}.
Arguments Undefined {A}.

Definition object_prototype_keys : list string :=
  [ "constructor"; "hasOwnProperty"; "isPrototypeOf";
    "propertyIsEnumerable"; "toLocaleString"; "toString"; "valueOf";
    "__proto__"; "__defineGetter__"; "__defineSetter__";
    "__lookupGetter__"; "__lookupSetter__" ].

Definition inherited (key : string) : bool :=
  existsb (String.eqb key) object_prototype_keys.

Fixpoint own (A : Type) (obj : list (string * A)) (key : string) : option A :=
  match obj with
  | [] => None
  | (k, a) :: obj' => if String.eqb key k then Some a else own obj' key
  end.

Definition get (A : Type) (obj : list (string * A)) (key : string)
  : property A :=
  match own obj key with
  | Some a => Own a
  | None => if inherited key then Inherited else Undefined
  end.

(** A value that is a number, or something that is not one (a function,
    an object, or the string a function is concatenated into). *)
Inductive value : Type :=
| Num (n : num)
| NotANumber.

(** ToNumber *)
Definition to_number (v : value) : num :=
  match v with Num n => n | NotANumber => NaN end.

(** [v += n]: addition on numbers, string concatenation otherwise. *)
Definition plus_assign (v : value) (n : num) : value :=
  match v with Num a => Num (a + n) | NotANumber => NotANumber end.

(** How a call ends. *)
Inductive outcome (A : Type) : Type :=
| Return (a : A)
| ThrowTypeError.

Arguments ThrowTypeError {A}.

(* ================================================================== *)
(** ** [calculateTax]                                                  *)
(* ================================================================== *)

Record Bracket : Type := { min : num; max : num; rate : num }.

Definition Infinity : num := PInf.

Definition single_brackets : list Bracket :=
  [ {| min := of_Z 0;      max := of_Z 11000;  rate := lit 0.10 |};
    {| min := of_Z 11001;  max := of_Z 44725;  rate := lit 0.12 |};
    {| min := of_Z 44726;  max := of_Z 95375;  rate := lit 0.22 |};
    {| min := of_Z 95376;  max := of_Z 182050; rate := lit 0.24 |};
    {| min := of_Z 182051; max := of_Z 231250; rate := lit 0.32 |};
    {| min := of_Z 231251; max := of_Z 578125; rate := lit 0.35 |};
    {| min := of_Z 578126; max := Infinity;    rate := lit 0.37 |} ].

Definition married_brackets : list Bracket :=
  [ {| min := of_Z 0;      max := of_Z 22000;  rate := lit 0.10 |};
    {| min := of_Z 22001;  max := of_Z 89450;  rate := lit 0.12 |};
    {| min := of_Z 89451;  max := of_Z 190750; rate := lit 0.22 |};
    {| min := of_Z 190751; max := of_Z 364200; rate := lit 0.24 |};
    {| min := of_Z 364201; max := of_Z 462500; rate := lit 0.32 |};
    {| min := of_Z 462501; max := of_Z 693750; rate := lit 0.35 |};
    {| min := of_Z 693751; max := Infinity;    rate := lit 0.37 |} ].

Definition taxBrackets : list (string * list Bracket) :=
  [ ("single", single_brackets); ("married", married_brackets) ].

(** The [for (const bracket of brackets)] loop, on the brackets still to
    visit, with the two variables it updates; it yields the final
    [totalTax]. *)
Fixpoint bracket_loop (brackets : list Bracket) (totalTax remainingIncome : num)
  : num :=
  match brackets with
  | [] => totalTax
  | bracket :: rest =>
      if (remainingIncome <=? zero)%num then totalTax (* break *)
      else
        let taxableAtThisBracket :=
          Math_min remainingIncome
                   (max bracket - min bracket + of_Z 1)%num in
        if (taxableAtThisBracket >? zero)%num then
          bracket_loop rest
                       (totalTax + taxableAtThisBracket * rate bracket)%num
                       (remainingIncome - taxableAtThisBracket)%num
        else bracket_loop rest totalTax remainingIncome
  end.

(** [taxBrackets[filingStatus] || taxBrackets.single]: an inherited member
    is truthy, so it is what [brackets] becomes; iterating it throws. *)
Definition calculateTax (income : num) (filingStatus : string)
           (deductions : value) : outcome num :=
  let brackets :=
    match get taxBrackets filingStatus with
    | Undefined => get taxBrackets "single"
    | found => found
    end in
  let taxableIncome := Math_max zero (income - to_number deductions)%num in
  match brackets with
  | Own brackets =>
      let totalTax := bracket_loop brackets zero taxableIncome in
      Return (Math_round (totalTax * of_Z 100) / of_Z 100)%num
  | _ => ThrowTypeError
  end.

(* ================================================================== *)
(** ** [calculateStandardDeduction]                                    *)
(* ================================================================== *)

Definition standardDeductions : list (string * num) :=
  [ ("single", of_Z 13850); ("married", of_Z 27700);
    ("marriedSeparate", of_Z 13850); ("headOfHousehold", of_Z 20800) ].

Definition calculateStandardDeduction (filingStatus : string) (age : Z)
  : value :=
  let fallback :=
    match get standardDeductions "single" with
    | Own n => Num n
    | _ => NotANumber
    end in
  let deduction :=
    match get standardDeductions filingStatus with
    | Own n => if truthy n then Num n else fallback
    | Inherited => NotANumber
    | Undefined => fallback
    end in
  if 65 <=? age then
    plus_assign deduction
      (if String.eqb filingStatus "married" then of_Z 1500 else of_Z 1850)
  else deduction.

(* ================================================================== *)
(** ** [calculateEITC]                                                 *)
(* ================================================================== *)

Record Limits : Type := { single : num; married : num; credit : num }.

(** The keys are the numerals 0 to 3; no numeral names an inherited
    member, so a read by number finds an own row or [undefined]. *)
Definition eitcLimits : list (Z * Limits) :=
  [ (0, {| single := of_Z 17640; married := of_Z 23260; credit := of_Z 600 |});
    (1, {| single := of_Z 46560; married := of_Z 52918; credit := of_Z 3995 |});
    (2, {| single := of_Z 51567; married := of_Z 58250; credit := of_Z 6604 |});
    (3, {| single := of_Z 55529; married := of_Z 62044; credit := of_Z 7430 |}) ].

Fixpoint own_index (A : Type) (obj : list (Z * A)) (key : Z) : option A :=
  match obj with
  | [] => None
  | (k, a) :: obj' => if key =? k then Some a else own_index obj' key
  end.

Definition calculateEITC (income : num) (filingStatus : string)
           (children : Z) : num :=
  let childCount := Z.min children 3 in
  match own_index eitcLimits childCount with
  | None => zero
  | Some limits =>
      let incomeLimit :=
        if String.eqb filingStatus "married" then married limits
        else single limits in
      if (income >? incomeLimit)%num then zero else credit limits
  end.

(* ================================================================== *)
(** ** The handler of [POST /calculate-tax]                            *)
(* ================================================================== *)

(** A descriptor of an uploaded file, as the upload middleware hands it
    over. *)
Record File : Type :=
  { originalname : string; file_mimetype : string; file_size : Z }.

(** [req.body] and [req.files].  Every field of the body is a string or
    is absent ([None], read as [undefined]). *)
Module Request.
Record t : Type :=
  { filingStatus : option string;
    income : option string;
    age : option string;
    dependents : option string;
    itemizedDeductions : option string;
    useStandardDeduction : option string;
    w2Income : option string;
    selfEmploymentIncome : option string;
    interestIncome : option string;
    dividendIncome : option string;
    capitalGains : option string;
    otherIncome : option string;
    files : option (list File) }.
End Request.

(** The JSON document of a successful response.  [calculationDate], the
    clock reading, is left out. *)
Module Result.
Record Document : Type :=
  { filename : string; mimetype : string; size : Z }.
Record TaxpayerInfo : Type := { age : Z; dependents : Z }.
Record Breakdown : Type :=
  { primary : num; w2 : num; selfEmployment : num; interest : num;
    dividends : num; capitalGains : num; other : num }.
Record Income : Type := { totalGrossIncome : num; breakdown : Breakdown }.
Record Deductions : Type :=
  { standardDeduction : value;
    itemizedDeductions : num;
    deductionUsed : value;
    deductionType : string }.
Record TaxCalculation : Type :=
  { taxableIncome : num;
    federalIncomeTax : num;
    selfEmploymentTax : num;
    earnedIncomeCredit : num;
    totalTaxLiability : num }.
Record RefundOrOwed : Type :=
  { estimatedWithholding : num; amount : num; type : string }.
Record t : Type :=
  { taxYear : Z;
    filingStatus : string;
    taxpayerInfo : TaxpayerInfo;
    income : Income;
    deductions : Deductions;
    taxCalculation : TaxCalculation;
    refundOrOwed : RefundOrOwed;
    uploadedDocuments : list Document;
    disclaimer : string }.
End Result.

(** What the handler answers: the result (status 200), the missing-field
    error (status 400), or the error of the [catch] block (status 500). *)
Inductive response : Type :=
| Ok (result : Result.t)
| ValidationError
| ComputationError.

(** [!v] on a field: absent or the empty string. *)
Definition falsy (v : option string) : bool :=
  match v with
  | None => true
  | Some s => String.eqb s ""
  end.

(** [v === s] *)
Definition strict_eq (v : option string) (s : string) : bool :=
  match v with
  | Some s' => String.eqb s' s
  | None => false
  end.

Definition disclaimer_text : string :=
  "This is a simplified tax calculation for estimation purposes only. Consult a tax professional for accurate filing.".

Definition calculate_tax_handler (req : Request.t) : response :=
  match Request.filingStatus req with
  | None => ValidationError
  | Some filingStatus =>
  if (falsy (Some filingStatus) || falsy (Request.income req))%bool
  then ValidationError
  else
    let totalIncome := or_zero (parseFloat (Request.income req)) in
    let userAge := int_or_zero (parseInt (Request.age req)) in
    let numDependents := int_or_zero (parseInt (Request.dependents req)) in
    let itemizedDeductionAmount :=
      or_zero (parseFloat (Request.itemizedDeductions req)) in
    let additionalIncome :=
      {| Result.primary := totalIncome;
         Result.w2 := or_zero (parseFloat (Request.w2Income req));
         Result.selfEmployment :=
           or_zero (parseFloat (Request.selfEmploymentIncome req));
         Result.interest := or_zero (parseFloat (Request.interestIncome req));
         Result.dividends := or_zero (parseFloat (Request.dividendIncome req));
         Result.capitalGains := or_zero (parseFloat (Request.capitalGains req));
         Result.other := or_zero (parseFloat (Request.otherIncome req)) |} in
    let totalGrossIncome :=
      (totalIncome
       + Result.w2 additionalIncome
       + Result.selfEmployment additionalIncome
       + Result.interest additionalIncome
       + Result.dividends additionalIncome
       + Result.capitalGains additionalIncome
       + Result.other additionalIncome)%num in
    let standardDeduction := calculateStandardDeduction filingStatus userAge in
    let itemizing := strict_eq (Request.useStandardDeduction req) "false" in
    let deductionAmount :=
      if itemizing
      then Num (Math_max itemizedDeductionAmount (to_number standardDeduction))
      else standardDeduction in
    match calculateTax totalGrossIncome filingStatus deductionAmount with
    | ThrowTypeError => ComputationError
    | Return federalTax =>
        let eitc := calculateEITC totalGrossIncome filingStatus numDependents in
        let selfEmploymentTax :=
          (Result.selfEmployment additionalIncome * lit 0.1413)%num in
        let totalTaxLiability := (federalTax + selfEmploymentTax - eitc)%num in
        let estimatedWithholding :=
          (Result.w2 additionalIncome * lit 0.20)%num in
        let refundOrOwed := (estimatedWithholding - totalTaxLiability)%num in
        let uploadedDocuments :=
          match Request.files req with
          | Some files =>
              map (fun file =>
                     {| Result.filename := originalname file;
                        Result.mimetype := file_mimetype file;
                        Result.size := file_size file |}) files
          | None => []
          end in
        Ok {| Result.taxYear := 2024;
              Result.filingStatus := filingStatus;
              Result.taxpayerInfo :=
                {| Result.age := userAge; Result.dependents := numDependents |};
              Result.income :=
                {| Result.totalGrossIncome := totalGrossIncome;
                   Result.breakdown := additionalIncome |};
              Result.deductions :=
                {| Result.standardDeduction := standardDeduction;
                   Result.itemizedDeductions := itemizedDeductionAmount;
                   Result.deductionUsed := deductionAmount;
                   Result.deductionType :=
                     if itemizing then "itemized" else "standard" |};
              Result.taxCalculation :=
                {| Result.taxableIncome :=
                     Math_max zero
                       (totalGrossIncome - to_number deductionAmount)%num;
                   Result.federalIncomeTax := federalTax;
                   Result.selfEmploymentTax := selfEmploymentTax;
                   Result.earnedIncomeCredit := eitc;
                   Result.totalTaxLiability := Math_max zero totalTaxLiability |};
              Result.refundOrOwed :=
                {| Result.estimatedWithholding := estimatedWithholding;
                   Result.amount := refundOrOwed;
                   Result.type :=
                     if (refundOrOwed >=? zero)%num then "refund" else "owed" |};
              Result.uploadedDocuments := uploadedDocuments;
              Result.disclaimer := disclaimer_text |}
    end
  end.


(* ================================================================== *)
(** ** The handler of [POST /upload-documents]                         *)
(* ================================================================== *)

(** What the route answers: the descriptors of the files (status 200) or
    the error of an upload without files (status 400).  [uploadDate], a
    clock reading per file, is left out of the descriptors. *)
Inductive upload_response : Type :=
| Uploaded (message : string) (files : list Result.Document)
| UploadRejected (error : string).

Definition upload_documents_handler (files : option (list File))
  : upload_response :=
  match files with
  | None => UploadRejected "No documents uploaded"
  | Some files =>
      if (Z.of_nat (List.length files) =? 0) then
        UploadRejected "No documents uploaded"
      else
        Uploaded "Documents uploaded successfully"
                 (map (fun file =>
                         {| Result.filename := originalname file;
                            Result.mimetype := file_mimetype file;
                            Result.size := file_size file |}) files)
  end.

(* ================================================================== *)
(** ** The file filter of the upload middleware                        *)
(* ================================================================== *)

(** [path.extname], for paths with [/] as separator. *)
Module Path.

Record scan : Type :=
  { startDot : Z; startPart : Z; end_ : Z;
    matchedSlash : bool; preDotState : Z }.

(** The loop from the last character to the first: [rev_path] holds the
    characters still to visit, last first, and [i] is the index of its
    head. *)
Fixpoint extname_loop (rev_path : list ascii) (i : Z) (s : scan) : scan :=
  match rev_path with
  | [] => s
  | code :: rest =>
      if Ascii.eqb code "/" then
        if negb (matchedSlash s) then
          {| startDot := startDot s; startPart := i + 1; end_ := end_ s;
             matchedSlash := matchedSlash s;
             preDotState := preDotState s |} (* break *)
        else extname_loop rest (i - 1) s (* continue *)
      else
        let s1 :=
          if end_ s =? -1 then
            {| startDot := startDot s; startPart := startPart s;
               end_ := i + 1; matchedSlash := false;
               preDotState := preDotState s |}
          else s in
        let s2 :=
          if Ascii.eqb code "." then
            if startDot s1 =? -1 then
              {| startDot := i; startPart := startPart s1; end_ := end_ s1;
                 matchedSlash := matchedSlash s1;
                 preDotState := preDotState s1 |}
            else if negb (preDotState s1 =? 1) then
              {| startDot := startDot s1; startPart := startPart s1;
                 end_ := end_ s1; matchedSlash := matchedSlash s1;
                 preDotState := 1 |}
            else s1
          else if negb (startDot s1 =? -1) then
            {| startDot := startDot s1; startPart := startPart s1;
               end_ := end_ s1; matchedSlash := matchedSlash s1;
               preDotState := -1 |}
          else s1 in
        extname_loop rest (i - 1) s2
  end.

Definition extname (path : string) : string :=
  let s :=
    extname_loop (rev (list_ascii_of_string path))
                 (Z.of_nat (String.length path) - 1)
                 {| startDot := -1; startPart := 0; end_ := -1;
                    matchedSlash := true; preDotState := 0 |} in
  if ((startDot s =? -1) || (end_ s =? -1) || (preDotState s =? 0)
      || ((preDotState s =? 1) && (startDot s =? end_ s - 1)
          && (startDot s =? startPart s + 1)))%bool
  then ""
  else substring (Z.to_nat (startDot s)) (Z.to_nat (end_ s - startDot s)) path.

End Path.

(** [toLowerCase] on the letters A to Z; every other character stays. *)
Definition lower (c : ascii) : ascii :=
  let n := nat_of_ascii c in
  if ((65 <=? n) && (n <=? 90))%nat then ascii_of_nat (n + 32) else c.

Fixpoint toLowerCase (s : string) : string :=
  match s with
  | EmptyString => EmptyString
  | String c s' => String (lower c) (toLowerCase s')
  end.

(** Whether [t] occurs in [s]. *)
Fixpoint occurs (t s : string) : bool :=
  (prefix t s
   || match s with
      | EmptyString => false
      | String _ s' => occurs t s'
      end)%bool.

(** The alternatives of [/jpeg|jpg|png|pdf|doc|docx/]; the expression has
    no anchor, so [test] looks for an occurrence of any of them. *)
Definition allowedTypes : list string :=
  [ "jpeg"; "jpg"; "png"; "pdf"; "doc"; "docx" ].

Definition test (alternatives : list string) (s : string) : bool :=
  existsb (fun alternative => occurs alternative s) alternatives.

(** What the filter hands to its callback: [cb(null, true)], or
    [cb(new Error(message))]. *)
Inductive filter_result : Type :=
| AcceptFile
| RejectFile (message : string).

Definition fileFilter (file : File) : filter_result :=
  let extname :=
    test allowedTypes (toLowerCase (Path.extname (originalname file))) in
  let mimetype := test allowedTypes (file_mimetype file) in
  if (mimetype && extname)%bool then AcceptFile
  else RejectFile "Invalid file type".

(* ================================================================== *)
(** ** The error-handling middleware                                   *)
(* ================================================================== *)

(** What reaches the middleware: an error of the upload library, with its
    code, or any other error, with its message. *)
Inductive failure : Type :=
| MulterError (code : string)
| Error (message : string).

Inductive error_response : Type :=
| Status400 (error : string)
| Status500 (error : string).

Definition error_middleware (error : failure) : error_response :=
  match error with
  | MulterError code =>
      if String.eqb code "LIMIT_FILE_SIZE" then Status400 "File size too large"
      else Status500 "Internal server error"
  | Error _ => Status500 "Internal server error"
  end.

(** The error the upload middleware passes on when the filter rejects a
    file: the one the filter gave its callback. *)
Definition filter_failure (result : filter_result) : option failure :=
  match result with
  | AcceptFile => None
  | RejectFile message => Some (Error message)
  end.

(* ================================================================== *)
(** ** The form of the front end                                       *)
(* ================================================================== *)

Module App.

(** The state [formData]: an object with string values, as its keys in
    insertion order. *)
Definition formData : Type := list (string * string).

(** The argument of [useState]. *)
Definition initial : formData :=
  [ ("filingStatus", "single"); ("income", ""); ("age", "");
    ("dependents", "0") ].

(** [{...prev, [name]: value}] *)
Fixpoint assign (prev : formData) (name value : string) : formData :=
  match prev with
  | [] => [(name, value)]
  | (key, old) :: rest =>
      if String.eqb key name then (key, value) :: rest
      else (key, old) :: assign rest name value
  end.

(** [handleInputChange], on the name and the value of the event's
    target. *)
Definition handleInputChange (name value : string) (prev : formData)
  : formData :=
  assign prev name value.

(** The [name] attributes of the form's controls. *)
Definition control_names : list string :=
  [ "filingStatus"; "income"; "age"; "dependents" ].

(** The request the server reads from the body
    [JSON.stringify(formData)]: each field is the own property of its
    name, and no file comes with a JSON body. *)
Definition request (body : formData) : Request.t :=
  {| Request.filingStatus := own body "filingStatus";
     Request.income := own body "income";
     Request.age := own body "age";
     Request.dependents := own body "dependents";
     Request.itemizedDeductions := own body "itemizedDeductions";
     Request.useStandardDeduction := own body "useStandardDeduction";
     Request.w2Income := own body "w2Income";
     Request.selfEmploymentIncome := own body "selfEmploymentIncome";
     Request.interestIncome := own body "interestIncome";
     Request.dividendIncome := own body "dividendIncome";
     Request.capitalGains := own body "capitalGains";
     Request.otherIncome := own body "otherIncome";
     Request.files := None |}.

(** The state after a run of change events, each a name and a value. *)
Definition after (events : list (string * string)) : formData :=
  fold_left (fun state event =>
               handleInputChange (fst event) (snd event) state)
            events initial.

End App.
Unset Implicit Arguments.

(* ================================================================== *)
(** ** Vocabulary of the statements                                    *)
(* ================================================================== *)

Section BracketWalk.

Local Open Scope Q_scope.

(** [upperBound - lowerBound + 1], as the loop computes it. *)
Definition bracket_width (b : Bracket) : num :=
  (max b - min b + of_Z 1)%num.

(** The part of a remaining amount [x] that a bracket of width [w]
    takes. *)
Definition portion (w : num) (x : Q) : Q :=
  match w with
  | Fin w => if Qle_bool x w then x else w
  | _ => x
  end.

Definition rate_of (b : Bracket) : Q :=
  match rate b with Fin r => r | _ => 0 end.

(** The tax on a taxable amount [x] before rounding: every bracket in
    turn takes its portion of what remains, taxed at its rate. *)
Fixpoint unrounded_tax (brackets : list Bracket) (x : Q) : Q :=
  match brackets with
  | [] => 0
  | b :: rest =>
      let t := portion (bracket_width b) x in
      t * rate_of b + unrounded_tax rest (x - t)
  end.

(** Rounding to the cent, a half cent going up, as the specification
    words the last step of the bracket tax. *)
Definition round_cents (q : Q) : Q :=
  inject_Z (Qfloor (q * 100 + (1 # 2))) / 100.

(** [max(0, income - deductions)] *)
Definition taxable (income deductions : Q) : Q :=
  if Qle_bool 0 (income - deductions) then income - deductions else 0.

(** The table [calculateTax] walks for a filing status that names no
    inherited member. *)
Definition brackets_for (filingStatus : string) : list Bracket :=
  if String.eqb filingStatus "married" then married_brackets
  else single_brackets.

(** A bracket the walk can use: a finite rate between 0 and [top], and a
    width that is positive or unbounded. *)
Definition usable (top : Q) (b : Bracket) : Prop :=
  (exists r, rate b = Fin r /\ 0 <= r <= top) /\
  (bracket_width b = PInf \/ exists w, bracket_width b = Fin w /\ 0 < w).

Definition top_rate : Q := 0.37.

End BracketWalk.

(** The two gates of the handler, read off a request: the check of the
    required fields, and whether the filing status names a member every
    object inherits. *)
Definition passes_validation (req : Request.t) : bool :=
  negb (falsy (Request.filingStatus req) || falsy (Request.income req)).

Definition status_inherited (req : Request.t) : bool :=
  match Request.filingStatus req with
  | Some filingStatus => inherited filingStatus
  | None => false
  end.


(** The EITC lookup as the specification words it: the count is clamped
    to the range 0 to 3, the row of the clamped count is selected, and the
    credit is the row's unless the income exceeds the ceiling. *)
Definition eitc_row (count : Z) : Limits :=
  if count =? 0 then
    {| single := of_Z 17640; married := of_Z 23260; credit := of_Z 600 |}
  else if count =? 1 then
    {| single := of_Z 46560; married := of_Z 52918; credit := of_Z 3995 |}
  else if count =? 2 then
    {| single := of_Z 51567; married := of_Z 58250; credit := of_Z 6604 |}
  else
    {| single := of_Z 55529; married := of_Z 62044; credit := of_Z 7430 |}.

Definition ceiling (filingStatus : string) (row : Limits) : num :=
  if String.eqb filingStatus "married" then married row else single row.

Definition eitc_of_row (income : num) (filingStatus : string) (row : Limits)
  : num :=
  if (income >? ceiling filingStatus row)%num then zero else credit row.

Definition eitc_as_specified (income : num) (filingStatus : string)
           (children : Z) : num :=
  eitc_of_row income filingStatus (eitc_row (Z.max 0 (Z.min children 3))).

(** Requests.  [form] fills the fields the form of the front end has and
    the two income sources of the scenarios; every other field is absent. *)
Definition form (filingStatus income age dependents w2Income
                 selfEmploymentIncome : option string) : Request.t :=
  {| Request.filingStatus := filingStatus;
     Request.income := income;
     Request.age := age;
     Request.dependents := dependents;
     Request.itemizedDeductions := None;
     Request.useStandardDeduction := None;
     Request.w2Income := w2Income;
     Request.selfEmploymentIncome := selfEmploymentIncome;
     Request.interestIncome := None;
     Request.dividendIncome := None;
     Request.capitalGains := None;
     Request.otherIncome := None;
     Request.files := None |}.

(** Married, income 0, W-2 income 30000, no self-employment income, two
    dependents, no age given, standard deduction. *)
Definition married_scenario : Request.t :=
  form (Some "married") (Some "0") None (Some "2") (Some "30000") (Some "0").

(** Single, income 50000, age 30, no dependents, nothing else. *)
Definition single_scenario : Request.t :=
  form (Some "single") (Some "50000") (Some "30") (Some "0") None None.




(** A filing status that names a method of every object. *)
Definition inherited_status : Request.t :=
  form (Some "toString") (Some "50000") None None None None.

(** Properties of a result, as predicates on it. *)

(** The liability before it is clamped for the report. *)
Definition raw_liability (r : Result.t) : num :=
  let tax := Result.taxCalculation r in
  (Result.federalIncomeTax tax + Result.selfEmploymentTax tax
   - Result.earnedIncomeCredit tax)%num.

(** Reconciliation: the reported liability is the raw one clamped at 0,
    the signed amount is the withholding minus the raw liability, and the
    tag follows the sign of the amount. *)
Definition reconciled (r : Result.t) : Prop :=
  let tax := Result.taxCalculation r in
  let out := Result.refundOrOwed r in
  Result.totalTaxLiability tax = Math_max zero (raw_liability r) /\
  Result.amount out = (Result.estimatedWithholding out - raw_liability r)%num /\
  Result.type out
  = (if (Result.amount out >=? zero)%num then "refund" else "owed").

(** Reconciliation as the specification words it: the signed amount is
    the withholding minus the reported, clamped liability. *)
Definition reconciled_as_specified (r : Result.t) : Prop :=
  let tax := Result.taxCalculation r in
  let out := Result.refundOrOwed r in
  Result.totalTaxLiability tax = Math_max zero (raw_liability r) /\
  Result.amount out
  = (Result.estimatedWithholding out - Result.totalTaxLiability tax)%num /\
  Result.type out
  = (if (Result.amount out >=? zero)%num then "refund" else "owed").







(** The base amounts of the standard deduction, with the fall-back to the
    single amount, and the supplement from age 65. *)
Definition base_deduction (filingStatus : string) : Z :=
  if String.eqb filingStatus "married" then 27700
  else if String.eqb filingStatus "headOfHousehold" then 20800
  else 13850.

Definition senior_supplement (filingStatus : string) (age : Z) : Z :=
  if 65 <=? age then
    (if String.eqb filingStatus "married" then 1500 else 1850)
  else 0.


(** A request that elects to itemize an amount below the standard
    deduction. *)
Definition itemizing_below_standard : Request.t :=
  {| Request.filingStatus := Some "single";
     Request.income := Some "50000";
     Request.age := None;
     Request.dependents := None;
     Request.itemizedDeductions := Some "5000";
     Request.useStandardDeduction := Some "false";
     Request.w2Income := None;
     Request.selfEmploymentIncome := None;
     Request.interestIncome := None;
     Request.dividendIncome := None;
     Request.capitalGains := None;
     Request.otherIncome := None;
     Request.files := None |}.

(** A request whose income sources add up to NaN. *)
Definition undefined_income : Request.t :=
  form (Some "single") (Some "Infinity") None (Some "1") (Some "-Infinity")
       None.

(** The amounts [calculateEITC] can return. *)
Definition credit_amounts : list num :=
  [ zero; of_Z 600; of_Z 3995; of_Z 6604; of_Z 7430 ].

(** A request with two uploaded files. *)
Definition with_documents : Request.t :=
  {| Request.filingStatus := Some "single";
     Request.income := Some "50000";
     Request.age := None;
     Request.dependents := None;
     Request.itemizedDeductions := None;
     Request.useStandardDeduction := None;
     Request.w2Income := None;
     Request.selfEmploymentIncome := None;
     Request.interestIncome := None;
     Request.dividendIncome := None;
     Request.capitalGains := None;
     Request.otherIncome := None;
     Request.files :=
       Some [ {| originalname := "w2.pdf"; file_mimetype := "application/pdf";
                 file_size := 52340 |};
              {| originalname := "receipt.JPG"; file_mimetype := "image/jpeg";
                 file_size := 180221 |} ] |}.

(** A Word document under its registered media type. *)
Definition word_document : File :=
  {| originalname := "letter.doc"; file_mimetype := "application/msword";
     file_size := 20480 |}.

(** A run of change events of the form. *)
Definition typing : list (string * string) :=
  [ ("income", "5"); ("income", "52000"); ("filingStatus", "married");
    ("dependents", "2"); ("age", "41") ].

(** What the state of the form keeps: a value under the name of each
    control, and nothing under any other name. *)
Definition form_shaped (state : App.formData) : Prop :=
  forall key,
    if existsb (String.eqb key) App.control_names
    then exists value, own state key = Some value
    else own state key = None.

(** The words whose occurrence the filter's expression comes down to:
    its alternatives without [docx], which holds [doc]. *)
Definition allowed_words : list string :=
  [ "jpeg"; "jpg"; "png"; "pdf"; "doc" ].
(* ================================================================== *)
(** ** The bracket walk on finite amounts                              *)
(* ================================================================== *)

Section BracketWalkFacts.

Local Open Scope Q_scope.

Lemma Qle_bool_false (x y : Q) : Qle_bool x y = false <-> y < x.
Proof.
  split; intro H.
  - apply Qnot_le_lt. intro L. apply Qle_bool_iff in L. congruence.
  - destruct (Qle_bool x y) eqn:E; trivial.
    apply Qle_bool_iff in E. lra.
Qed.

Ltac case_le x y :=
  let E := fresh "E" in
  destruct (Qle_bool x y) eqn:E;
  [ apply Qle_bool_iff in E | apply Qle_bool_false in E ].

Lemma portion_bounds (w : num) (x : Q) :
  (w = PInf \/ exists q, w = Fin q /\ 0 < q) -> 0 <= x ->
  0 <= portion w x <= x.
Proof.
  intros [-> | (q & -> & Hq)] Hx; simpl.
  - lra.
  - case_le x q; lra.
Qed.

Lemma portion_compat (w : num) (x y : Q) :
  x == y -> portion w x == portion w y.
Proof.
  intros H. destruct w; simpl; trivial.
  case_le x q; case_le y q; lra.
Qed.

Lemma portion_mono (w : num) (x y : Q) :
  x <= y ->
  portion w x <= portion w y /\ portion w y - portion w x <= y - x.
Proof.
  intros H. destruct w; simpl; try lra.
  case_le x q; case_le y q; lra.
Qed.

Lemma unrounded_tax_compat (bs : list Bracket) :
  forall x y, x == y -> unrounded_tax bs x == unrounded_tax bs y.
Proof.
  induction bs as [| b bs IH]; intros x y H; simpl.
  - reflexivity.
  - pose proof (portion_compat (bracket_width b) x y H) as P.
    rewrite (IH (x - portion (bracket_width b) x)
                (y - portion (bracket_width b) y)) by lra.
    rewrite P. reflexivity.
Qed.

Lemma unrounded_tax_zero (top : Q) (bs : list Bracket) :
  Forall (usable top) bs -> forall x, x == 0 -> unrounded_tax bs x == 0.
Proof.
  induction 1 as [| b bs [_ Hw] _ IH]; intros x Hx; simpl.
  - reflexivity.
  - assert (0 <= x) as Hx0 by lra.
    pose proof (portion_bounds _ x Hw Hx0) as P.
    rewrite IH by lra.
    assert (portion (bracket_width b) x == 0) as -> by lra.
    lra.
Qed.

(** The step from a rate bound to the linear facts the proofs need. *)
Lemma rate_share (top r d : Q) :
  0 <= r <= top -> 0 <= d -> 0 <= d * r /\ d * r <= top * d.
Proof.
  intros Hr Hd. split.
  - apply Qmult_le_0_compat; lra.
  - rewrite (Qmult_comm d r). apply Qmult_le_compat_r; lra.
Qed.

(** On a finite, non-negative remaining income the loop stays finite and
    adds the unrounded tax to the running total. *)
Lemma bracket_loop_finite (top : Q) (bs : list Bracket) :
  Forall (usable top) bs ->
  forall t x, 0 <= x ->
  exists q, bracket_loop bs (Fin t) (Fin x) = Fin q /\
            q == t + unrounded_tax bs x.
Proof.
  induction 1 as [| b bs Hb Hbs IH]; intros t x Hx.
  - exists t. split; [reflexivity | simpl; lra].
  - cbn [bracket_loop]. cbn [JsNumber.leb zero].
    case_le x 0.
    + exists t. split; [reflexivity |].
      rewrite (unrounded_tax_zero top _ (Forall_cons b Hb Hbs) x); lra.
    + fold (bracket_width b).
      pose proof Hb as [(r & Hr & Hr01) Hw].
      pose proof (portion_bounds _ x Hw Hx) as P.
      assert (Math_min (Fin x) (bracket_width b)
              = Fin (portion (bracket_width b) x)) as ->.
      { destruct Hw as [-> | (w & -> & Hw)]; simpl; trivial.
        destruct (Qle_bool x w); reflexivity. }
      assert (0 < portion (bracket_width b) x) as Ppos.
      { destruct Hw as [-> | (w & -> & Hw)]; simpl; [lra |].
        case_le x w; lra. }
      unfold gtb. cbn [JsNumber.ltb zero].
      replace (Qle_bool (portion (bracket_width b) x) 0) with false
        by (symmetry; apply Qle_bool_false; exact Ppos).
      cbn [negb]. rewrite Hr. cbn [mul add sub].
      set (p := portion (bracket_width b) x) in *.
      destruct (IH (Qred (t + Qred (p * r))) (Qred (x - p))) as (q & Eq & Hq).
      { rewrite Qred_correct. lra. }
      exists q. split; [exact Eq |].
      rewrite Hq. cbn [unrounded_tax]. fold p.
      unfold rate_of. rewrite Hr.
      rewrite (unrounded_tax_compat bs (Qred (x - p)) (x - p))
        by apply Qred_correct.
      rewrite !Qred_correct. lra.
Qed.

(** The unrounded tax never decreases with the taxable amount, and grows
    by at most the top rate times the increase. *)
Lemma unrounded_tax_slope (top : Q) (bs : list Bracket) :
  0 <= top -> Forall (usable top) bs ->
  forall x y, 0 <= x -> x <= y ->
  0 <= unrounded_tax bs y - unrounded_tax bs x <= top * (y - x).
Proof.
  intros Htop.
  induction 1 as [| b bs Hb Hbs IH]; intros x y Hx Hxy.
  - simpl. assert (0 <= top * (y - x)) by (apply Qmult_le_0_compat; lra).
    lra.
  - cbn [unrounded_tax].
    pose proof Hb as [(r & Hr & Hr01) Hw].
    unfold rate_of. rewrite Hr.
    set (px := portion (bracket_width b) x).
    set (py := portion (bracket_width b) y).
    assert (0 <= px <= x) as Bx by (apply portion_bounds; trivial).
    destruct (portion_mono (bracket_width b) x y Hxy) as [M1 M2].
    fold px py in M1, M2.
    assert (0 <= x - px) as H1 by lra.
    assert (x - px <= y - py) as H2 by lra.
    specialize (IH (x - px) (y - py) H1 H2).
    assert (0 <= py - px) as H3 by lra.
    destruct (rate_share top r (py - px) Hr01 H3) as [S1 S2].
    lra.
Qed.

Lemma unrounded_tax_nonneg (top : Q) (bs : list Bracket) :
  0 <= top -> Forall (usable top) bs ->
  forall x, 0 <= x -> 0 <= unrounded_tax bs x.
Proof.
  intros Htop H x Hx.
  pose proof (unrounded_tax_slope top bs Htop H 0 x) as S.
  rewrite (unrounded_tax_zero top bs H 0) in S by reflexivity.
  lra.
Qed.

Ltac usable_bracket :=
  split;
  [ eexists; split;
    [ reflexivity | split; apply Qle_bool_iff; vm_compute; reflexivity ]
  | first
      [ left; vm_compute; reflexivity
      | right; eexists; split; [ vm_compute; reflexivity | reflexivity ] ] ].

Lemma usable_brackets_for (filingStatus : string) :
  Forall (usable top_rate) (brackets_for filingStatus).
Proof.
  unfold brackets_for.
  destruct (String.eqb filingStatus "married");
    repeat (apply Forall_cons; [ usable_bracket | ]); apply Forall_nil.
Qed.


Lemma round_cents_mono (a b : Q) : a <= b -> round_cents a <= round_cents b.
Proof.
  intros H. unfold round_cents.
  assert (Qfloor (a * 100 + (1 # 2)) <= Qfloor (b * 100 + (1 # 2)))%Z as F
    by (apply Qfloor_resp_le; lra).
  rewrite Zle_Qle in F.
  apply Qle_shift_div_l; [reflexivity |].
  unfold Qdiv. rewrite <- Qmult_assoc, (Qmult_comm (/ 100)), Qmult_inv_r
    by discriminate.
  lra.
Qed.


Lemma round_cents_nonneg (a : Q) : 0 <= a -> 0 <= round_cents a.
Proof.
  intros H. pose proof (round_cents_mono 0 a H) as M.
  assert (round_cents 0 == 0) as E by reflexivity.
  lra.
Qed.

Lemma brackets_of_status (filingStatus : string) :
  inherited filingStatus = false ->
  match get taxBrackets filingStatus with
  | Undefined => get taxBrackets "single"
  | found => found
  end = Own (brackets_for filingStatus).
Proof.
  intros H. unfold get, brackets_for. cbn [own taxBrackets].
  destruct (String.eqb filingStatus "single") eqn:S.
  - apply String.eqb_eq in S. subst. reflexivity.
  - destruct (String.eqb filingStatus "married"); [reflexivity |].
    rewrite H. reflexivity.
Qed.

(** The walk and the rounding after it, on a finite, non-negative taxable
    income. *)
Lemma rounded_walk_finite (filingStatus : string) (y : Q) :
  0 <= y ->
  exists q,
    (Math_round (bracket_loop (brackets_for filingStatus) zero (Fin y)
                 * of_Z 100) / of_Z 100)%num = Fin q /\
    q == round_cents (unrounded_tax (brackets_for filingStatus) y).
Proof.
  intros Hy. unfold zero.
  destruct (bracket_loop_finite top_rate _
              (usable_brackets_for filingStatus) 0 y Hy)
    as (q1 & -> & Hq1).
  cbn [mul of_Z Math_round div].
  change (Qeq_bool (inject_Z 100) 0) with false. cbn iota.
  eexists. split; [reflexivity |].
  rewrite Qred_correct. unfold round_cents.
  assert (Qred (q1 * inject_Z 100) + (1 # 2)
          == unrounded_tax (brackets_for filingStatus) y * 100 + (1 # 2)) as ->.
  { rewrite Qred_correct, Hq1. change (inject_Z 100) with 100. lra. }
  reflexivity.
Qed.

(** [Math.max(0, income - deductions)] on finite amounts. *)
Lemma taxable_income_finite (income deductions : Q) :
  exists y,
    Math_max zero (Fin income - Fin deductions)%num = Fin y /\
    y == taxable income deductions /\ 0 <= y.
Proof.
  unfold zero. cbn [sub Math_max JsNumber.leb].
  exists (if Qle_bool 0 (Qred (income - deductions))
          then Qred (income - deductions) else 0).
  split; [destruct (Qle_bool 0 (Qred (income - deductions))); reflexivity |].
  unfold taxable.
  pose proof (Qred_correct (income - deductions)) as R.
  case_le 0 (Qred (income - deductions));
    case_le 0 (income - deductions); split; lra.
Qed.


End BracketWalkFacts.

(* ================================================================== *)
(** ** Facts about the embedding                                       *)
(* ================================================================== *)


Lemma or_zero_of_nan (x : num) : x = NaN -> or_zero x = zero.
Proof. intros ->. reflexivity. Qed.

Lemma strict_eq_iff (v : option string) (s : string) :
  strict_eq v s = true <-> v = Some s.
Proof.
  destruct v as [s' |]; simpl.
  - split; intros H.
    + apply String.eqb_eq in H. subst. reflexivity.
    + injection H as ->. apply String.eqb_refl.
  - split; discriminate.
Qed.

Lemma inherited_cases (key : string) :
  inherited key = true -> In key object_prototype_keys.
Proof.
  unfold inherited. intros H. apply existsb_exists in H.
  destruct H as (k & Hin & Heq). apply String.eqb_eq in Heq. subst. exact Hin.
Qed.

(** A filing status that names an inherited member: the loop has a
    function, or the prototype object, to iterate, and throws. *)
Lemma calculateTax_inherited (income : num) (filingStatus : string)
      (deductions : value) :
  inherited filingStatus = true ->
  calculateTax income filingStatus deductions = ThrowTypeError.
Proof.
  intros H. pose proof (inherited_cases _ H) as Hin.
  unfold calculateTax, get. rewrite H.
  simpl in Hin.
  repeat (destruct Hin as [<- | Hin]; [reflexivity |]).
  contradiction.
Qed.

(** Every other filing status: the call returns, after walking the
    married table for "married" and the single table otherwise. *)
Lemma calculateTax_supported (income : num) (filingStatus : string)
      (deductions : value) :
  inherited filingStatus = false ->
  calculateTax income filingStatus deductions
  = Return (Math_round
              (bracket_loop (brackets_for filingStatus) zero
                 (Math_max zero (income - to_number deductions))
               * of_Z 100) / of_Z 100)%num.
Proof.
  intros H. unfold calculateTax. rewrite (brackets_of_status _ H). reflexivity.
Qed.

(** The standard deduction of such a filing status is a positive finite
    amount. *)
Lemma calculateStandardDeduction_finite (filingStatus : string) (age : Z) :
  inherited filingStatus = false ->
  exists s, calculateStandardDeduction filingStatus age = Num (Fin s)
            /\ (0 < s)%Q.
Proof.
  intros H. unfold calculateStandardDeduction, get. cbn [own standardDeductions].
  rewrite H.
  destruct (String.eqb filingStatus "single");
    [| destruct (String.eqb filingStatus "married");
       [| destruct (String.eqb filingStatus "marriedSeparate");
          [| destruct (String.eqb filingStatus "headOfHousehold") ] ] ];
    destruct (65 <=? age); cbn;
    try (destruct (String.eqb filingStatus "married"); cbn);
    eexists; (split; [reflexivity | reflexivity]).
Qed.


(** Runs the handler of a request that passes both gates, and leaves the
    property of its result to prove. *)
Ltac run_handler req V I :=
  unfold passes_validation, status_inherited in V, I;
  unfold calculate_tax_handler;
  destruct (Request.filingStatus req) as [filingStatus |];
  [ apply negb_true_iff in V; rewrite V;
    rewrite (calculateTax_supported _ _ _ I);
    eexists; split; [ reflexivity | ]
  | discriminate V ].

(* ================================================================== *)
(** ** Reconciliation (C1, C2, C3)                                     *)
(* ================================================================== *)

(** C1, as amended.  Every request that passes validation with a filing
    status naming no inherited member gets a result in which
    totalTaxLiability is max(0, federalTax + selfEmploymentTax - eitc),
    refundOrOwed is estimatedWithholding minus the liability before that
    clamp, and the tag is 'refund' when refundOrOwed >= 0 and 'owed'
    otherwise. *)
Theorem refund_from_raw_liability (req : Request.t) :
  passes_validation req = true -> status_inherited req = false ->
  exists r, calculate_tax_handler req = Ok r /\ reconciled r.
Proof.
  intros V I. run_handler req V I.
  unfold reconciled, raw_liability. cbn. repeat split.
Qed.

Lemma refund_from_raw_liability_witness :
  passes_validation married_scenario = true /\
  status_inherited married_scenario = false /\
  exists r, calculate_tax_handler married_scenario = Ok r /\ reconciled r.
Proof.
  split; [reflexivity | split; [reflexivity |]].
  apply (refund_from_raw_liability married_scenario); reflexivity.
Defined.

(** C1, the counterexample.  In the married scenario the reported
    liability is 0 and the withholding 6000, so the amount the claim
    states is 6000; the handler reports 12374. *)
Lemma refund_not_from_clamped_liability :
  passes_validation married_scenario = true /\
  exists r,
    calculate_tax_handler married_scenario = Ok r /\
    let tax := Result.taxCalculation r in
    let out := Result.refundOrOwed r in
    (Result.estimatedWithholding out - Result.totalTaxLiability tax)%num
    = of_Z 6000 /\
    Result.amount out = of_Z 12374 /\
    ~ reconciled_as_specified r.
Proof.
  split; [reflexivity |].
  eexists. split; [vm_compute; reflexivity |].
  cbn zeta. split; [reflexivity | split; [reflexivity |]].
  intros (_ & H & _). vm_compute in H. discriminate H.
Qed.

(** C2, as amended.  The married scenario: gross income 30000, credit
    6604, deduction 27700, taxable income 2300, federal tax 230.00,
    reported liability 0, withholding 6000, and a refund of 12374.00. *)
Theorem married_scenario_result :
  exists r,
    calculate_tax_handler married_scenario = Ok r /\
    Result.totalGrossIncome (Result.income r) = of_Z 30000 /\
    Result.earnedIncomeCredit (Result.taxCalculation r) = of_Z 6604 /\
    Result.deductionUsed (Result.deductions r) = Num (of_Z 27700) /\
    Result.taxableIncome (Result.taxCalculation r) = of_Z 2300 /\
    Result.federalIncomeTax (Result.taxCalculation r) = lit 230.00 /\
    Result.totalTaxLiability (Result.taxCalculation r) = zero /\
    Result.estimatedWithholding (Result.refundOrOwed r) = of_Z 6000 /\
    Result.amount (Result.refundOrOwed r) = lit 12374.00 /\
    Result.type (Result.refundOrOwed r) = "refund".
Proof.
  eexists. split; [vm_compute; reflexivity |].
  repeat split.
Qed.

(** C2, the counterexample.  The refund of the married scenario is not
    the 6000.00 of the claim. *)
Lemma married_scenario_refund_not_6000 :
  exists r,
    calculate_tax_handler married_scenario = Ok r /\
    Result.amount (Result.refundOrOwed r) <> lit 6000.00.
Proof.
  eexists. split; [vm_compute; reflexivity |].
  vm_compute. discriminate.
Qed.

(** C3, on the code.  The single scenario: deduction 13850, taxable
    income 36150, no credit, no self-employment tax, no withholding, and
    a federal tax of 4117.98 where the claim has 4118.00: the loop gives
    the first bracket a width of 11000 - 0 + 1, so a taxable income of
    11001 is taxed at 10% throughout. *)
Theorem single_scenario_result :
  (exists r,
    calculate_tax_handler single_scenario = Ok r /\
    Result.deductionUsed (Result.deductions r) = Num (of_Z 13850) /\
    Result.taxableIncome (Result.taxCalculation r) = of_Z 36150 /\
    Result.federalIncomeTax (Result.taxCalculation r) = lit 4117.98 /\
    Result.earnedIncomeCredit (Result.taxCalculation r) = zero /\
    Result.selfEmploymentTax (Result.taxCalculation r) = zero /\
    Result.totalTaxLiability (Result.taxCalculation r) = lit 4117.98 /\
    Result.estimatedWithholding (Result.refundOrOwed r) = zero /\
    Result.amount (Result.refundOrOwed r) = lit (-4117.98) /\
    Result.type (Result.refundOrOwed r) = "owed") /\
  option_map bracket_width (hd_error single_brackets) = Some (of_Z 11001) /\
  calculateTax (of_Z 11001) "single" (Num zero) = Return (lit 1100.10).
Proof.
  split; [| split; reflexivity].
  eexists. split; [vm_compute; reflexivity |].
  repeat split.
Qed.

(* ================================================================== *)
(** ** The bracket tax (C4, C9)                                        *)
(* ================================================================== *)

(** C4, on the code.  The fall-back to the single table misses the filing
    statuses that name a member every object inherits: for "toString" the
    property read finds the inherited method, which is truthy and not
    iterable, so [calculateTax] throws and the handler answers with the
    error of its catch block. *)
Theorem bracket_tax_throws_on_inherited_status :
  calculateTax (of_Z 50000) "toString" (Num (of_Z 13850)) = ThrowTypeError /\
  calculate_tax_handler inherited_status = ComputationError.
Proof. split; reflexivity. Qed.

Section BracketTaxInIncome.

Local Open Scope Q_scope.





End BracketTaxInIncome.

(* ================================================================== *)
(** ** The credit (C5)                                                 *)
(* ================================================================== *)

(** C5, as amended.  A negative count gets no credit.  A count of 0 or
    more selects the row of min(count, 3), so that every count above 3
    behaves as 3; the ceiling is the married one for "married" and the
    single one for every other status; the credit is 0 when the income
    exceeds the ceiling and the row's flat credit otherwise. *)
Theorem calculateEITC_rows (income : num) (filingStatus : string)
        (children : Z) :
  calculateEITC income filingStatus children
  = (if children <? 0 then zero
     else eitc_of_row income filingStatus (eitc_row (Z.min children 3))) /\
  calculateEITC income filingStatus (Z.max children 3)
  = calculateEITC income filingStatus 3.
Proof.
  split.
  - unfold calculateEITC, eitc_of_row, ceiling.
    destruct (Z.ltb_spec children 0) as [Neg | Pos].
    + assert (Z.min children 3 = children) as -> by lia.
      cbn [own_index eitcLimits].
      repeat match goal with
             | |- context [children =? ?k] =>
                 destruct (Z.eqb_spec children k); [lia |]
             end.
      reflexivity.
    + assert (Z.min children 3 = 0 \/ Z.min children 3 = 1 \/
              Z.min children 3 = 2 \/ Z.min children 3 = 3)
        as [-> | [-> | [-> | ->]]] by lia; reflexivity.
  - unfold calculateEITC.
    assert (Z.min (Z.max children 3) 3 = 3) as -> by lia. reflexivity.
Qed.

(** C5, the counterexample.  With a count of -1 and no income the claim's
    clamp to the range 0 to 3 selects row 0 and its credit of 600; the
    code finds no row and returns 0. *)
Lemma negative_count_gets_no_credit :
  calculateEITC zero "single" (-1) = zero /\
  eitc_as_specified zero "single" (-1) = of_Z 600.
Proof. split; reflexivity. Qed.

(* ================================================================== *)
(** ** The deduction election (C6)                                     *)
(* ================================================================== *)




(* ================================================================== *)
(** ** Validation and errors (C7)                                      *)
(* ================================================================== *)





(* ================================================================== *)
(** ** The income profile (C8)                                         *)
(* ================================================================== *)




(* ================================================================== *)
(** ** Where amounts are rounded (C10)                                 *)
(* ================================================================== *)




(* ================================================================== *)
(** ** Further properties of the calculations                          *)
(* ================================================================== *)

Section FurtherProperties.

Local Open Scope Q_scope.



(** X3.  An income within the deductions is not taxed. *)
Theorem no_tax_within_deductions (filingStatus : string)
        (income deductions : Q) :
  inherited filingStatus = false -> income <= deductions ->
  calculateTax (Fin income) filingStatus (Num (Fin deductions)) = Return zero.
Proof.
  intros I H. rewrite (calculateTax_supported _ _ _ I). cbn [to_number].
  destruct (taxable_income_finite income deductions) as (y & -> & Ey & Hy).
  assert (Qle_bool y 0 = true) as L.
  { apply Qle_bool_iff. rewrite Ey. unfold taxable.
    destruct (Qle_bool 0 (income - deductions)); lra. }
  unfold brackets_for.
  destruct (String.eqb filingStatus "married");
    cbn [bracket_loop married_brackets single_brackets JsNumber.leb zero];
    rewrite L; reflexivity.
Qed.

Lemma no_tax_within_deductions_witness :
  calculateTax (Fin 10000) "single" (Num (Fin 13850)) = Return zero.
Proof.
  apply (no_tax_within_deductions "single" 10000 13850).
  - reflexivity.
  - discriminate.
Defined.



Lemma bracket_loop_nan (bs : list Bracket) (total : num) :
  bracket_loop bs total NaN = total.
Proof. induction bs as [| b bs IH]; [reflexivity | exact IH]. Qed.

Lemma bracket_loop_infinite (filingStatus : string) :
  bracket_loop (brackets_for filingStatus) zero PInf = PInf.
Proof.
  unfold brackets_for.
  destruct (String.eqb filingStatus "married"); vm_compute; reflexivity.
Qed.

Lemma clamped_cases (z : num) :
  Math_max zero z = NaN \/ Math_max zero z = PInf \/
  exists y, Math_max zero z = Fin y /\ 0 <= y.
Proof.
  unfold zero. destruct z as [a | | |]; cbn [Math_max JsNumber.leb].
  - right. right. destruct (Qle_bool 0 a) eqn:A.
    + exists a. split; [reflexivity | apply Qle_bool_iff, A].
    + exists 0. split; [reflexivity | apply Qle_refl].
  - right. left. reflexivity.
  - right. right. exists 0. split; [reflexivity | apply Qle_refl].
  - left. reflexivity.
Qed.

(** X2.  On every number, NaN and the infinities included, and every
    deduction value, the bracket tax of a filing status naming no
    inherited member is returned and is never negative: it is a finite
    amount of 0 or more, or [Infinity]. *)
Theorem bracket_tax_never_negative (income : num) (filingStatus : string)
        (deductions : value) :
  inherited filingStatus = false ->
  exists tax,
    calculateTax income filingStatus deductions = Return tax /\
    (tax = PInf \/ exists q, tax = Fin q /\ 0 <= q).
Proof.
  intros I. rewrite (calculateTax_supported _ _ _ I).
  eexists. split; [reflexivity |].
  destruct (clamped_cases (income - to_number deductions)%num)
    as [-> | [-> | (y & -> & Hy)]].
  - rewrite bracket_loop_nan. right. exists 0.
    split; [reflexivity | apply Qle_refl].
  - rewrite bracket_loop_infinite. left. reflexivity.
  - destruct (rounded_walk_finite filingStatus y Hy) as (q & -> & Hq).
    right. exists q. split; [reflexivity |].
    rewrite Hq. apply round_cents_nonneg.
    apply (unrounded_tax_nonneg top_rate).
    + unfold top_rate. lra.
    + apply usable_brackets_for.
    + exact Hy.
Qed.

Lemma bracket_tax_never_negative_witness :
  exists tax,
    calculateTax NaN "marriedSeparate" NotANumber = Return tax /\
    (tax = PInf \/ exists q, tax = Fin q /\ 0 <= q).
Proof.
  apply (bracket_tax_never_negative NaN "marriedSeparate" NotANumber).
  reflexivity.
Defined.

(** X5.  The standard deduction of a filing status naming no inherited
    member:
    27700 for "married", 20800 for "headOfHousehold", 13850 for "single",
    "marriedSeparate" and every other status; from age 65 on, 1500 more
    for "married" and 1850 more otherwise. *)
Theorem standard_deduction_table (filingStatus : string) (age : Z) :
  inherited filingStatus = false ->
  calculateStandardDeduction filingStatus age
  = Num (of_Z (base_deduction filingStatus
               + senior_supplement filingStatus age)).
Proof.
  intros I.
  unfold calculateStandardDeduction, get, base_deduction, senior_supplement.
  cbn [own standardDeductions]. rewrite I.
  destruct (String.eqb filingStatus "single") eqn:S;
    [ apply String.eqb_eq in S; subst; destruct (65 <=? age)%Z; reflexivity |].
  destruct (String.eqb filingStatus "married") eqn:M;
    [ destruct (65 <=? age)%Z; reflexivity |].
  destruct (String.eqb filingStatus "marriedSeparate") eqn:P;
    [ apply String.eqb_eq in P; subst; destruct (65 <=? age)%Z; reflexivity |].
  destruct (String.eqb filingStatus "headOfHousehold") eqn:Hh;
    destruct (65 <=? age)%Z; reflexivity.
Qed.

Lemma standard_deduction_table_witness :
  calculateStandardDeduction "married" 70 = Num (of_Z 29200).
Proof. apply (standard_deduction_table "married" 70). reflexivity. Defined.

End FurtherProperties.

(* ================================================================== *)
(** ** The bracket tax across deductions and tables                    *)
(* ================================================================== *)

Section BracketTaxComparisons.

Local Open Scope Q_scope.












End BracketTaxComparisons.

(* ================================================================== *)
(** ** The order of numbers                                            *)
(* ================================================================== *)

Section NumberOrder.

Local Open Scope num_scope.

Ltac to_Q :=
  repeat match goal with
         | H : Qle_bool _ _ = true |- _ => apply Qle_bool_iff in H
         | H : Qle_bool _ _ = false |- _ => apply Qle_bool_false in H
         | H : negb _ = true |- _ => apply negb_true_iff in H
         | H : negb _ = false |- _ => apply negb_false_iff in H
         | |- negb _ = true => apply negb_true_iff
         | |- Qle_bool _ _ = true => apply Qle_bool_iff
         | |- Qle_bool _ _ = false => apply Qle_bool_false
         end.

Ltac by_cases :=
  cbn; intros; try reflexivity; try discriminate; to_Q; try lra.

Lemma leb_refl (a : num) : a <> NaN -> (a <=? a) = true.
Proof. destruct a; by_cases. contradiction. Qed.

Lemma leb_trans (a b c : num) :
  (a <=? b) = true -> (b <=? c) = true -> (a <=? c) = true.
Proof. destruct a, b, c; by_cases. Qed.

Lemma ltb_leb_trans (a b c : num) :
  (a <? b) = true -> (b <=? c) = true -> (a <? c) = true.
Proof. destruct a, b, c; by_cases. Qed.

Lemma leb_ltb_trans (a b c : num) :
  (a <=? b) = true -> (b <? c) = true -> (a <? c) = true.
Proof. destruct a, b, c; by_cases. Qed.

Lemma Math_max_zero_id (x : num) :
  (zero <=? x) = true -> Math_max zero x = x.
Proof.
  unfold zero. destruct x as [a | | |]; cbn; try discriminate; try reflexivity.
  intros ->. reflexivity.
Qed.

End NumberOrder.

(* ================================================================== *)
(** ** The credit across incomes, counts and statuses                  *)
(* ================================================================== *)

Section CreditComparisons.

Local Open Scope num_scope.

Lemma calculateEITC_by_row (income : num) (filingStatus : string)
      (children : Z) :
  calculateEITC income filingStatus children
  = (if (children <? 0)%Z then zero
     else eitc_of_row income filingStatus (eitc_row (Z.min children 3))).
Proof.
  unfold calculateEITC, eitc_of_row, ceiling.
  destruct (Z.ltb_spec children 0) as [Neg | Pos].
  - assert (Z.min children 3 = children) as -> by lia.
    cbn [own_index eitcLimits].
    repeat match goal with
           | |- context [(children =? ?k)%Z] =>
               destruct (Z.eqb_spec children k); [lia |]
           end.
    reflexivity.
  - assert (Z.min children 3 = 0 \/ Z.min children 3 = 1 \/
            Z.min children 3 = 2 \/ Z.min children 3 = 3)%Z
      as [-> | [-> | [-> | ->]]] by lia; reflexivity.
Qed.

(** The rows of the table, by the count they serve. *)
Lemma row_cases (children : Z) :
  (0 <= children)%Z ->
  exists k, (0 <= k <= 3)%Z /\ Z.min children 3 = k /\
            (k = 0 \/ k = 1 \/ k = 2 \/ k = 3)%Z.
Proof. intros H. exists (Z.min children 3). lia. Qed.

(** A step credit against another with a higher ceiling and a higher
    amount. *)
Lemma step_credit_le (income l1 l2 c1 c2 : num) :
  (l1 <=? l2) = true -> (zero <=? c1) = true -> (c1 <=? c2) = true ->
  ((if income >? l1 then zero else c1)
   <=? (if income >? l2 then zero else c2)) = true.
Proof.
  intros L Z C. unfold gtb.
  destruct (l2 <? income) eqn:E2.
  - rewrite (leb_ltb_trans l1 l2 income L E2). reflexivity.
  - destruct (l1 <? income).
    + exact (leb_trans zero c1 c2 Z C).
    + exact C.
Qed.

(** X9.  The credit is always one of the five amounts 0, 600, 3995, 6604
    and 7430, whatever the income (NaN and the infinities included), the
    filing status and the count. *)
Theorem credit_is_a_table_amount (income : num) (filingStatus : string)
        (children : Z) :
  In (calculateEITC income filingStatus children) credit_amounts.
Proof.
  rewrite calculateEITC_by_row. unfold credit_amounts.
  destruct (children <? 0)%Z eqn:N; [left; reflexivity |].
  apply Z.ltb_ge in N.
  destruct (row_cases children N) as (k & _ & -> & [-> | [-> | [-> | ->]]]);
    unfold eitc_of_row;
    destruct (income >? _); cbn; auto 10.
Qed.

(** X10.  The credit never grows with the income: of two incomes, the
    higher gets at most the credit of the lower. *)
Theorem credit_antitone_in_income (income1 income2 : num)
        (filingStatus : string) (children : Z) :
  (income1 <=? income2) = true ->
  (calculateEITC income2 filingStatus children
   <=? calculateEITC income1 filingStatus children) = true.
Proof.
  intros H. rewrite !calculateEITC_by_row.
  destruct (children <? 0)%Z eqn:N; [reflexivity |].
  apply Z.ltb_ge in N.
  destruct (row_cases children N) as (k & _ & -> & K).
  unfold eitc_of_row, gtb.
  set (l := ceiling filingStatus (eitc_row k)).
  destruct (l <? income1) eqn:E1.
  - rewrite (ltb_leb_trans l income1 income2 E1 H). reflexivity.
  - destruct (l <? income2);
      destruct K as [-> | [-> | [-> | ->]]]; reflexivity.
Qed.

Lemma credit_antitone_in_income_witness :
  (calculateEITC (of_Z 60000) "single" 2
   <=? calculateEITC (of_Z 30000) "single" 2) = true.
Proof.
  apply (credit_antitone_in_income (of_Z 30000) (of_Z 60000) "single" 2).
  reflexivity.
Defined.

(** X11.  With the income and the filing status fixed, a larger count of
    0 or more never lowers the credit. *)
Theorem credit_monotone_in_children (income : num) (filingStatus : string)
        (children1 children2 : Z) :
  (0 <= children1)%Z -> (children1 <= children2)%Z ->
  (calculateEITC income filingStatus children1
   <=? calculateEITC income filingStatus children2) = true.
Proof.
  intros H0 H. rewrite !calculateEITC_by_row.
  assert ((children1 <? 0)%Z = false) as -> by (apply Z.ltb_ge; lia).
  assert ((children2 <? 0)%Z = false) as -> by (apply Z.ltb_ge; lia).
  destruct (row_cases children1 H0) as (k1 & _ & E1 & K1).
  destruct (row_cases children2 (Z.le_trans _ _ _ H0 H)) as (k2 & _ & E2 & K2).
  assert (k1 <= k2)%Z as Hk by lia.
  rewrite E1, E2. unfold eitc_of_row, ceiling.
  destruct (String.eqb filingStatus "married");
    destruct K1 as [-> | [-> | [-> | ->]]];
    destruct K2 as [-> | [-> | [-> | ->]]];
    try lia; apply step_credit_le; reflexivity.
Qed.

Lemma credit_monotone_in_children_witness :
  (calculateEITC (of_Z 20000) "married" 1
   <=? calculateEITC (of_Z 20000) "married" 5) = true.
Proof.
  apply (credit_monotone_in_children (of_Z 20000) "married" 1 5); lia.
Defined.

(** X12.  With the income and the count fixed, "married" gets at least the
    credit of any other filing status. *)
Theorem married_credit_at_least_single (income : num)
        (filingStatus : string) (children : Z) :
  (calculateEITC income filingStatus children
   <=? calculateEITC income "married" children) = true.
Proof.
  rewrite !calculateEITC_by_row.
  destruct (children <? 0)%Z eqn:N; [reflexivity |].
  apply Z.ltb_ge in N.
  destruct (row_cases children N) as (k & _ & -> & K).
  unfold eitc_of_row, ceiling.
  change (String.eqb "married" "married") with true. cbn iota.
  destruct (String.eqb filingStatus "married");
    destruct K as [-> | [-> | [-> | ->]]];
    apply step_credit_le; reflexivity.
Qed.

End CreditComparisons.

(* ================================================================== *)
(** ** The standard deduction and the bracket tax together             *)
(* ================================================================== *)

Section DeductionAndTax.

Local Open Scope Q_scope.









End DeductionAndTax.

(* ================================================================== *)
(** ** Results of the handler, read back                               *)
(* ================================================================== *)

Lemma handler_ok_gates (req : Request.t) (r : Result.t) :
  calculate_tax_handler req = Ok r ->
  passes_validation req = true /\ status_inherited req = false.
Proof.
  unfold calculate_tax_handler, passes_validation, status_inherited.
  destruct (Request.filingStatus req) as [filingStatus |]; [| discriminate].
  destruct (falsy (Some filingStatus) || falsy (Request.income req))%bool;
    [discriminate |].
  intros H. split; [reflexivity |].
  destruct (inherited filingStatus) eqn:I; [| reflexivity].
  rewrite (calculateTax_inherited _ _ _ I) in H. discriminate H.
Qed.

Lemma read_back_result (P : Result.t -> Prop) (req : Request.t)
      (r : Result.t) :
  calculate_tax_handler req = Ok r ->
  (exists r', calculate_tax_handler req = Ok r' /\ P r') -> P r.
Proof.
  intros H (r' & H' & K). rewrite H in H'. injection H' as <-. exact K.
Qed.

(** Replaces the result [r] of a successful run, in the goal, by the
    record the handler built. *)
Ltac read_back req r H :=
  let V := fresh "V" in
  let I := fresh "I" in
  destruct (handler_ok_gates req r H) as [V I];
  pattern r; apply (read_back_result _ req r H);
  run_handler req V I.

(** Reads the fields of a result record. *)
Ltac fields :=
  unfold Result.taxYear, Result.filingStatus, Result.taxpayerInfo,
         Result.income, Result.deductions, Result.taxCalculation,
         Result.refundOrOwed, Result.uploadedDocuments, Result.disclaimer,
         Result.age, Result.dependents, Result.totalGrossIncome,
         Result.breakdown, Result.primary, Result.w2, Result.selfEmployment,
         Result.interest, Result.dividends, Result.capitalGains, Result.other,
         Result.standardDeduction, Result.itemizedDeductions,
         Result.deductionUsed, Result.deductionType,
         Result.taxableIncome, Result.federalIncomeTax,
         Result.selfEmploymentTax, Result.earnedIncomeCredit,
         Result.totalTaxLiability, Result.estimatedWithholding,
         Result.amount, Result.type in *;
  cbv beta iota zeta in *.

(** X15.  Whenever the liability before the clamp is 0 or more, the
    result reconciles as written in the report: refundOrOwed is the
    withholding minus the reported totalTaxLiability. *)
Theorem reconciles_with_report_when_liable (req : Request.t) (r : Result.t) :
  calculate_tax_handler req = Ok r ->
  (zero <=? raw_liability r)%num = true ->
  reconciled_as_specified r.
Proof.
  intros H L. revert L. read_back req r H.
  unfold reconciled_as_specified, raw_liability. fields. intros L.
  rewrite (Math_max_zero_id _ L).
  split; [reflexivity | split; reflexivity].
Qed.

Lemma reconciles_with_report_when_liable_witness :
  exists r, calculate_tax_handler single_scenario = Ok r /\
            reconciled_as_specified r.
Proof.
  eexists. split; [vm_compute; reflexivity |].
  eapply (reconciles_with_report_when_liable single_scenario);
    vm_compute; reflexivity.
Defined.

(** X16.  When itemizing is elected with an amount that does not exceed
    the standard deduction, the result is labelled 'itemized' while the
    deduction used is the standard one. *)
Theorem itemized_label_with_standard_amount (req : Request.t) (r : Result.t) :
  calculate_tax_handler req = Ok r ->
  Request.useStandardDeduction req = Some "false" ->
  (Result.itemizedDeductions (Result.deductions r)
   <=? to_number (Result.standardDeduction (Result.deductions r)))%num = true ->
  Result.deductionType (Result.deductions r) = "itemized" /\
  Result.deductionUsed (Result.deductions r)
  = Result.standardDeduction (Result.deductions r).
Proof.
  intros H F L. revert L. read_back req r H. fields.
  rewrite F. cbn [strict_eq].
  change (String.eqb "false" "false") with true. cbv iota.
  intros L. split; [reflexivity |].
  destruct (calculateStandardDeduction_finite filingStatus
              (int_or_zero (parseInt (Request.age req))) I) as (s & E & _).
  rewrite E in *. cbn [to_number] in *.
  destruct (or_zero (parseFloat (Request.itemizedDeductions req)));
    cbn [Math_max JsNumber.leb] in *; try discriminate L; try reflexivity.
  rewrite L. reflexivity.
Qed.

Lemma itemized_label_with_standard_amount_witness :
  exists r,
    calculate_tax_handler itemizing_below_standard = Ok r /\
    Result.deductionType (Result.deductions r) = "itemized" /\
    Result.deductionUsed (Result.deductions r)
    = Result.standardDeduction (Result.deductions r).
Proof.
  eexists. split; [vm_compute; reflexivity |].
  eapply (itemized_label_with_standard_amount itemizing_below_standard);
    vm_compute; reflexivity.
Defined.

(** X17.  When the income sources add up to NaN (an infinite source
    against one of the other sign), the federal tax is 0 and the credit
    is not withheld: a count of 0 or more gets the flat credit of its
    row. *)
Theorem undefined_income_is_untaxed_and_credited (req : Request.t)
        (r : Result.t) :
  calculate_tax_handler req = Ok r ->
  Result.totalGrossIncome (Result.income r) = NaN ->
  Result.federalIncomeTax (Result.taxCalculation r) = zero /\
  Result.earnedIncomeCredit (Result.taxCalculation r)
  = (if Result.dependents (Result.taxpayerInfo r) <? 0 then zero
     else credit (eitc_row (Z.min (Result.dependents (Result.taxpayerInfo r))
                                  3))).
Proof.
  intros H G. revert G. read_back req r H. fields. intros G.
  rewrite G. split.
  - cbn [sub Math_max]. rewrite bracket_loop_nan. reflexivity.
  - rewrite calculateEITC_by_row.
    destruct (_ <? 0); [reflexivity |].
    unfold eitc_of_row, gtb. destruct (ceiling _ _); reflexivity.
Qed.

Lemma undefined_income_is_untaxed_and_credited_witness :
  exists r,
    calculate_tax_handler undefined_income = Ok r /\
    Result.totalGrossIncome (Result.income r) = NaN /\
    Result.federalIncomeTax (Result.taxCalculation r) = zero /\
    Result.earnedIncomeCredit (Result.taxCalculation r) = of_Z 3995.
Proof.
  eexists. split; [vm_compute; reflexivity |].
  split; [reflexivity |].
  eapply (undefined_income_is_untaxed_and_credited undefined_income);
    vm_compute; reflexivity.
Defined.



(* ================================================================== *)
(** ** Uploads: the two routes, the filter and the error middleware    *)
(* ================================================================== *)

(** X18.  For the files of a request that gets a tax result, the upload
    route either answers with exactly the descriptors the tax result
    echoes, in the same order, when there is at least one file, or
    rejects the upload when there is none, in which case the tax result
    echoes no document. *)
Theorem upload_and_tax_routes_agree (req : Request.t) (r : Result.t) :
  calculate_tax_handler req = Ok r ->
  match upload_documents_handler (Request.files req) with
  | Uploaded _ documents =>
      documents = Result.uploadedDocuments r /\
      List.length documents
      = List.length (match Request.files req with
                     | Some files => files
                     | None => []
                     end) /\
      documents <> []
  | UploadRejected _ => Result.uploadedDocuments r = []
  end.
Proof.
  intros H. read_back req r H. fields.
  unfold upload_documents_handler.
  destruct (Request.files req) as [[| file files] |]; cbn [List.length map].
  - reflexivity.
  - destruct (Z.eqb_spec (Z.of_nat (S (List.length files))) 0) as [E | _];
      [lia |].
    split; [reflexivity | split; [| discriminate]].
    cbn. rewrite length_map. reflexivity.
  - reflexivity.
Qed.

Lemma upload_and_tax_routes_agree_witness :
  exists r,
    calculate_tax_handler with_documents = Ok r /\
    match upload_documents_handler (Request.files with_documents) with
    | Uploaded _ documents =>
        documents = Result.uploadedDocuments r /\
        List.length documents
        = List.length (match Request.files with_documents with
                       | Some files => files
                       | None => []
                       end) /\
        documents <> []
    | UploadRejected _ => Result.uploadedDocuments r = []
    end.
Proof.
  eexists. split; [vm_compute; reflexivity |].
  eapply (upload_and_tax_routes_agree with_documents).
  vm_compute. reflexivity.
Defined.

Lemma lower_keeps_separators (c : ascii) :
  Ascii.eqb (lower c) "/" = Ascii.eqb c "/" /\
  Ascii.eqb (lower c) "." = Ascii.eqb c ".".
Proof.
  destruct c as [[] [] [] [] [] [] [] []]; split; reflexivity.
Qed.

Lemma chars_of_toLowerCase (s : string) :
  list_ascii_of_string (toLowerCase s) = map lower (list_ascii_of_string s).
Proof. induction s as [| c s IH]; simpl; [| rewrite IH]; reflexivity. Qed.

Lemma length_toLowerCase (s : string) :
  String.length (toLowerCase s) = String.length s.
Proof. induction s as [| c s IH]; simpl; [| rewrite IH]; reflexivity. Qed.

Lemma substring_toLowerCase (n m : nat) (s : string) :
  substring n m (toLowerCase s) = toLowerCase (substring n m s).
Proof.
  revert n m. induction s as [| c s IH]; intros n m.
  - destruct n, m; reflexivity.
  - destruct n as [| n]; simpl.
    + destruct m as [| m]; simpl; [reflexivity |].
      rewrite (IH 0%nat m). reflexivity.
    + apply IH.
Qed.

(** The scan looks at a character only to tell a separator or a dot from
    the rest, so it does not see the case of letters. *)
Lemma extname_loop_lower (l : list ascii) :
  forall i s, Path.extname_loop (map lower l) i s = Path.extname_loop l i s.
Proof.
  induction l as [| c l IH]; intros i s; [reflexivity |].
  cbn [map Path.extname_loop].
  destruct (lower_keeps_separators c) as [-> ->].
  rewrite !IH. reflexivity.
Qed.

Lemma extname_toLowerCase (path : string) :
  Path.extname (toLowerCase path) = toLowerCase (Path.extname path).
Proof.
  unfold Path.extname.
  rewrite chars_of_toLowerCase, length_toLowerCase, <- map_rev,
    extname_loop_lower.
  match goal with |- (if ?c then _ else _) = _ => destruct c end.
  - reflexivity.
  - apply substring_toLowerCase.
Qed.

(** X19.  The file filter does not see the case of the letters of a file
    name: two files whose names differ only in the case of the letters A to
    Z, with the same media type, get the same verdict. *)
Theorem filter_ignores_case_of_name (file1 file2 : File) :
  toLowerCase (originalname file1) = toLowerCase (originalname file2) ->
  file_mimetype file1 = file_mimetype file2 ->
  fileFilter file1 = fileFilter file2.
Proof.
  intros N M. unfold fileFilter.
  rewrite <- !extname_toLowerCase, N, M. reflexivity.
Qed.

Lemma filter_ignores_case_of_name_witness :
  fileFilter {| originalname := "Scan.PDF";
                file_mimetype := "application/pdf"; file_size := 1 |}
  = fileFilter {| originalname := "scan.pdf";
                  file_mimetype := "application/pdf"; file_size := 2 |}.
Proof.
  apply filter_ignores_case_of_name; reflexivity.
Defined.

Lemma no_dot_chars (s : string) :
  occurs "." s = false ->
  Forall (fun c => Ascii.eqb c "." = false) (list_ascii_of_string s).
Proof.
  induction s as [| c s IH]; intros H; [constructor |].
  cbn [occurs] in H. apply orb_false_iff in H. destruct H as [P O].
  constructor; [| exact (IH O)].
  cbn [prefix] in P.
  destruct (ascii_dec "." c) as [<- | N].
  - destruct s; discriminate P.
  - apply Ascii.eqb_neq. congruence.
Qed.

Lemma extname_loop_without_dot (l : list ascii) :
  Forall (fun c => Ascii.eqb c "." = false) l ->
  forall i s,
    Path.startDot s = -1 ->
    Path.startDot (Path.extname_loop l i s) = -1.
Proof.
  induction 1 as [| c l Hc _ IH]; intros i s D; [exact D |].
  cbn [Path.extname_loop]. rewrite Hc.
  destruct (Ascii.eqb c "/").
  - destruct (negb (Path.matchedSlash s)); [exact D | apply IH, D].
  - apply IH.
    destruct (Path.end_ s =? -1); cbn [Path.startDot]; rewrite D;
      change (negb (-1 =? -1)) with false; cbv iota;
      [reflexivity | exact D].
Qed.

Lemma extname_without_dot (path : string) :
  occurs "." path = false -> Path.extname path = "".
Proof.
  intros H. unfold Path.extname.
  rewrite (extname_loop_without_dot _ (Forall_rev (no_dot_chars path H)))
    by reflexivity.
  reflexivity.
Qed.

(** X20.  A file whose name has no dot is rejected, whatever its media
    type. *)
Theorem filter_rejects_name_without_dot (file : File) :
  occurs "." (originalname file) = false ->
  fileFilter file = RejectFile "Invalid file type".
Proof.
  intros H. unfold fileFilter. rewrite (extname_without_dot _ H).
  change (test allowedTypes (toLowerCase "")) with false.
  rewrite andb_false_r. reflexivity.
Qed.

Lemma filter_rejects_name_without_dot_witness :
  fileFilter {| originalname := "passport-png";
                file_mimetype := "image/png"; file_size := 4096 |}
  = RejectFile "Invalid file type".
Proof.
  apply filter_rejects_name_without_dot. reflexivity.
Defined.

Lemma prefix_of_longer (t u s : string) :
  prefix (t ++ u) s = true -> prefix t s = true.
Proof.
  revert s. induction t as [| c t IH]; intros s H.
  - destruct s; reflexivity.
  - destruct s as [| d s]; [discriminate H |].
    cbn [append prefix] in *.
    destruct (ascii_dec c d); [apply IH, H | discriminate H].
Qed.

Lemma occurs_of_longer (t u s : string) :
  occurs (t ++ u) s = true -> occurs t s = true.
Proof.
  induction s as [| d s IH]; cbn [occurs]; intros H;
    apply orb_true_iff in H; apply orb_true_iff;
    destruct H as [P | O].
  - left. exact (prefix_of_longer t u _ P).
  - discriminate O.
  - left. exact (prefix_of_longer t u _ P).
  - right. exact (IH O).
Qed.

Lemma test_allowedTypes (s : string) :
  test allowedTypes s = test allowed_words s.
Proof.
  unfold test, allowedTypes, allowed_words. cbn [existsb].
  destruct (occurs "docx" s) eqn:E; [| rewrite !orb_false_r; reflexivity].
  rewrite (occurs_of_longer "doc" "x" s E).
  rewrite !orb_true_r. reflexivity.
Qed.

(** X21.  A file is accepted exactly when one of the words jpeg, jpg, png,
    pdf and doc occurs in the extension of its name, read in lower case,
    and one occurs in its media type as written; so a file announced as
    [application/msword], the media type of a [.doc] file, is rejected
    whatever its name. *)
Theorem filter_accepts_by_occurrence :
  (forall file,
     fileFilter file = AcceptFile
     <-> test allowed_words (toLowerCase (Path.extname (originalname file)))
         = true
         /\ test allowed_words (file_mimetype file) = true) /\
  (forall file,
     file_mimetype file = "application/msword" ->
     fileFilter file = RejectFile "Invalid file type").
Proof.
  split; intros file.
  - unfold fileFilter. rewrite !test_allowedTypes.
    destruct (test allowed_words (file_mimetype file));
      destruct (test allowed_words _); cbn [andb];
      (split; intros H;
       [ try discriminate H; split; reflexivity
       | try reflexivity; destruct H as [A B]; discriminate ]).
  - intros H. unfold fileFilter. rewrite H.
    change (test allowedTypes "application/msword") with false.
    reflexivity.
Qed.

Lemma filter_accepts_by_occurrence_witness :
  fileFilter word_document = RejectFile "Invalid file type".
Proof. apply (proj2 filter_accepts_by_occurrence). reflexivity. Defined.

(** X22.  Of all the failures of an upload, only a file over the size
    limit is answered with status 400; a file the filter rejects, like
    every other failure, is answered with status 500 and the message
    'Internal server error'. *)
Theorem only_oversize_is_a_client_error :
  (forall failure message,
     error_middleware failure = Status400 message
     <-> failure = MulterError "LIMIT_FILE_SIZE"
         /\ message = "File size too large") /\
  (forall file failure,
     filter_failure (fileFilter file) = Some failure ->
     error_middleware failure = Status500 "Internal server error").
Proof.
  split.
  - intros [code | m] message; cbn [error_middleware].
    + destruct (String.eqb_spec code "LIMIT_FILE_SIZE") as [-> | N].
      * split; [intros [= <-]; split; reflexivity | intros [_ ->]; reflexivity].
      * split; [discriminate | intros [[= E] _]; contradiction].
    + split; [discriminate | intros [E _]; discriminate E].
  - intros file failure. unfold fileFilter.
    destruct (_ && _)%bool; cbn [filter_failure]; [discriminate |].
    intros [= <-]. reflexivity.
Qed.

Lemma only_oversize_is_a_client_error_witness :
  error_middleware (Error "Invalid file type")
  = Status500 "Internal server error".
Proof.
  apply (proj2 only_oversize_is_a_client_error word_document).
  reflexivity.
Defined.

(* ================================================================== *)
(** ** Requests of the front end                                       *)
(* ================================================================== *)

Section FrontEnd.

Lemma own_assign_same (prev : App.formData) (name value : string) :
  own (App.assign prev name value) name = Some value.
Proof.
  induction prev as [| [key old] rest IH]; cbn [App.assign own].
  - rewrite String.eqb_refl. reflexivity.
  - destruct (String.eqb_spec key name) as [-> | N]; cbn [own].
    + rewrite String.eqb_refl. reflexivity.
    + destruct (String.eqb_spec name key) as [E | _]; [congruence | exact IH].
Qed.

Lemma own_assign_other (prev : App.formData) (name value key : string) :
  key <> name -> own (App.assign prev name value) key = own prev key.
Proof.
  intros N. induction prev as [| [k old] rest IH]; cbn [App.assign own].
  - destruct (String.eqb_spec key name); [contradiction | reflexivity].
  - destruct (String.eqb_spec k name) as [-> | K]; cbn [own].
    + destruct (String.eqb_spec key name); [contradiction | reflexivity].
    + rewrite IH. reflexivity.
Qed.

Lemma initial_form_shaped : form_shaped App.initial.
Proof.
  intros key. unfold App.control_names, App.initial. cbn [existsb own].
  repeat match goal with
         | |- context [String.eqb key ?k] => destruct (String.eqb key k)
         end; cbn; eauto.
Qed.

Lemma handleInputChange_form_shaped (name value : string)
      (state : App.formData) :
  In name App.control_names -> form_shaped state ->
  form_shaped (App.handleInputChange name value state).
Proof.
  intros N S key. unfold App.handleInputChange.
  destruct (String.eqb_spec key name) as [-> | D].
  - rewrite own_assign_same.
    assert (existsb (String.eqb name) App.control_names = true) as ->.
    { apply existsb_exists. exists name. split; [exact N |].
      apply String.eqb_refl. }
    eauto.
  - rewrite (own_assign_other _ _ _ _ D). apply S.
Qed.

Lemma after_form_shaped (events : list (string * string)) :
  Forall (fun event => In (fst event) App.control_names) events ->
  form_shaped (App.after events).
Proof.
  unfold App.after. generalize App.initial, initial_form_shaped.
  induction events as [| event events IH]; intros state S H; [exact S |].
  inversion H as [| ? ? N H']; subst. cbn [fold_left].
  apply IH; [| exact H'].
  apply handleInputChange_form_shaped; assumption.
Qed.

(** X23.  Whatever is typed into the controls of the form, the request it
    sends holds the four fields filingStatus, income, age and dependents,
    and no other: no W-2 or other income, no deduction election, no
    file. *)
Theorem form_sends_four_fields (events : list (string * string)) :
  Forall (fun event => In (fst event) App.control_names) events ->
  exists filingStatus income age dependents,
    App.request (App.after events)
    = form (Some filingStatus) (Some income) (Some age) (Some dependents)
           None None.
Proof.
  intros H. pose proof (after_form_shaped events H) as S.
  destruct (S "filingStatus") as [filingStatus E1].
  destruct (S "income") as [income E2].
  destruct (S "age") as [age E3].
  destruct (S "dependents") as [dependents E4].
  exists filingStatus, income, age, dependents.
  unfold App.request, form.
  rewrite E1, E2, E3, E4.
  rewrite (S "itemizedDeductions"), (S "useStandardDeduction"),
    (S "w2Income"), (S "selfEmploymentIncome"), (S "interestIncome"),
    (S "dividendIncome"), (S "capitalGains"), (S "otherIncome").
  reflexivity.
Qed.

Lemma form_sends_four_fields_witness :
  exists filingStatus income age dependents,
    App.request (App.after typing)
    = form (Some filingStatus) (Some income) (Some age) (Some dependents)
           None None.
Proof.
  apply (form_sends_four_fields typing).
  repeat (apply Forall_cons; [cbn; auto 10 |]). apply Forall_nil.
Defined.

(** A finite number in lowest terms, or a special value. *)
Lemma parseFloat_lowest_terms (v : option string) (q : Q) :
  parseFloat v = Fin q -> Qred q = q.
Proof.
  unfold parseFloat. destruct v as [s |]; [| discriminate].
  destruct (read_sign (trim_start s)) as [minus s1].
  destruct (prefix "Infinity" s1); [destruct minus; discriminate |].
  destruct (read_digits 10 s1 0 0) as [[ip ni] s2].
  match goal with
  | |- context [match ?e with pair _ _ => _ end] => destruct e as [[m nf] s3]
  end.
  destruct ni, nf; try discriminate; intros [= <-];
    apply Qred_complete, Qred_correct.
Qed.

Lemma add_zero_lowest_terms (x : num) :
  (forall q, x = Fin q -> Qred q = q) -> (x + zero)%num = x.
Proof.
  intros H. unfold zero. destruct x as [q | | |]; cbn [add]; try reflexivity.
  rewrite <- (H q eq_refl) at 2. f_equal.
  apply Qred_complete. ring.
Qed.

Lemma or_zero_lowest_terms (x : num) :
  (forall q, x = Fin q -> Qred q = q) ->
  forall q, or_zero x = Fin q -> Qred q = q.
Proof.
  intros H q. unfold or_zero.
  destruct (truthy x); [apply H |].
  intros [= <-]. reflexivity.
Qed.

(** The bracket tax of a clamped amount is a finite amount of 0 or more,
    or [Infinity]. *)
Lemma rounded_walk_range (filingStatus : string) (z : num) :
  let tax :=
    (Math_round (bracket_loop (brackets_for filingStatus) zero
                              (Math_max zero z) * of_Z 100) / of_Z 100)%num in
  tax = PInf \/ exists q, tax = Fin q /\ (0 <= q)%Q.
Proof.
  cbv zeta.
  destruct (clamped_cases z) as [-> | [-> | (y & -> & Hy)]].
  - rewrite bracket_loop_nan. right. exists 0%Q.
    split; [reflexivity | apply Qle_refl].
  - rewrite bracket_loop_infinite. left. reflexivity.
  - destruct (rounded_walk_finite filingStatus y Hy) as (q & -> & Hq).
    right. exists q. split; [reflexivity |].
    rewrite Hq. apply round_cents_nonneg.
    apply (unrounded_tax_nonneg top_rate).
    + unfold top_rate. lra.
    + apply usable_brackets_for.
    + exact Hy.
Qed.

Lemma calculateEITC_finite (income : num) (filingStatus : string)
      (children : Z) :
  exists e, calculateEITC income filingStatus children = Fin e.
Proof.
  rewrite calculateEITC_by_row.
  destruct (children <? 0) eqn:N; [exists 0%Q; reflexivity |].
  apply Z.ltb_ge in N.
  destruct (row_cases children N) as (k & _ & -> & [-> | [-> | [-> | ->]]]);
    unfold eitc_of_row; destruct (gtb income _); eexists; reflexivity.
Qed.

(** Without withholding and self-employment tax, the sign of the amount
    is decided by the tax against the credit. *)
Lemma refund_without_withholding (tax : num) (e : Q) :
  (tax = PInf \/ exists q, tax = Fin q /\ (0 <= q)%Q) ->
  (zero - (tax + zero - Fin e) >=? zero)%num = (tax <=? Fin e)%num.
Proof.
  intros [-> | (q & -> & _)]; [reflexivity |].
  unfold geb, zero. cbn [add sub JsNumber.leb].
  apply eq_true_iff_eq. rewrite !Qle_bool_iff.
  pose proof (Qred_correct (q + 0)%Q) as A.
  pose proof (Qred_correct (Qred (q + 0) - e)%Q) as B.
  pose proof (Qred_correct (0 - Qred (Qred (q + 0) - e))%Q) as C.
  split; intros H; lra.
Qed.

(** X24.  A request holding only filingStatus, income, age and dependents,
    as the form sends it, gets a result without withholding and without
    self-employment tax, under the standard deduction, with the primary
    income as gross income; it is a 'refund' exactly when the federal tax
    does not exceed the credit. *)
Theorem form_result_refunds_only_the_credit
        (status income age dependents : string) (r : Result.t) :
  calculate_tax_handler
    (form (Some status) (Some income) (Some age) (Some dependents) None None)
  = Ok r ->
  let tax := Result.taxCalculation r in
  let out := Result.refundOrOwed r in
  Result.estimatedWithholding out = zero /\
  Result.selfEmploymentTax tax = zero /\
  Result.deductionType (Result.deductions r) = "standard" /\
  Result.totalGrossIncome (Result.income r)
  = Result.primary (Result.breakdown (Result.income r)) /\
  (Result.type out = "refund"
   <-> (Result.federalIncomeTax tax <=? Result.earnedIncomeCredit tax)%num
       = true).
Proof.
  intros H.
  read_back (form (Some status) (Some income) (Some age) (Some dependents)
                  None None) r H.
  fields.
  unfold form, Request.income, Request.age, Request.dependents,
    Request.itemizedDeductions, Request.useStandardDeduction,
    Request.w2Income, Request.selfEmploymentIncome, Request.interestIncome,
    Request.dividendIncome, Request.capitalGains, Request.otherIncome,
    Request.files.
  cbv beta iota.
  change (or_zero (parseFloat None)) with zero.
  change (zero * lit 0.20)%num with zero.
  change (zero * lit 0.1413)%num with zero.
  set (p := or_zero (parseFloat (Some income))).
  assert (p + zero + zero + zero + zero + zero + zero = p)%num as G.
  { assert (p + zero = p)%num as E
      by (apply add_zero_lowest_terms, or_zero_lowest_terms,
            parseFloat_lowest_terms).
    rewrite !E. reflexivity. }
  rewrite G.
  split; [reflexivity | split; [reflexivity | split; [reflexivity |]]].
  split; [reflexivity |].
  destruct (calculateEITC_finite p filingStatus
              (int_or_zero (parseInt (Some dependents)))) as (e & ->).
  rewrite (refund_without_withholding _ e (rounded_walk_range _ _)).
  destruct (_ <=? Fin e)%num; split; intros E;
    try reflexivity; discriminate E.
Qed.

Lemma form_result_refunds_only_the_credit_witness :
  exists r,
    calculate_tax_handler
      (form (Some "married") (Some "30000") (Some "41") (Some "2") None None)
    = Ok r /\
    Result.estimatedWithholding (Result.refundOrOwed r) = zero /\
    Result.type (Result.refundOrOwed r) = "refund".
Proof.
  eexists. split; [vm_compute; reflexivity |].
  pose proof (form_result_refunds_only_the_credit "married" "30000" "41" "2")
    as T.
  specialize (T _ eq_refl). cbv zeta in T.
  destruct T as (W & _ & _ & _ & R).
  split; [exact W |]. apply R. vm_compute. reflexivity.
Defined.

End FrontEnd.
